(** * transport/websocket.go: the websocket transport of golang-socketio

    A shallow embedding of [src/transport/websocket.go] and the proofs of
    its specification.

    The Go file is a thin layer over two external collaborators: the
    gorilla websocket connection (deadlines, frame readers and writers,
    dialing, the upgrade handshake) and net/http ([http.Error]).  Their
    behaviour is not part of the package, so it is abstracted by the
    interface [Lower]: every operation is an arbitrary function on an
    abstract state.  The package's own code is written in a state monad
    over a [World] that holds

    - the Go heap of [WebsocketTransport] objects (the code passes
      [*WebsocketTransport] pointers around and a connection keeps one),
    - the state of the lower layers, and
    - the sequence of calls made on the lower layers so far.

    A computation that dereferences a nil pointer panics; a panic is the
    result [None]. *)

From Stdlib Require Import ZArith String Ascii List Lia.
From Stdlib Require Import Strings.Byte.
From stdpp Require Import base option gmap sets strings.

Local Open Scope Z_scope.
Local Open Scope string_scope.

(** ** Constants of the imported packages *)

(** [time.Duration] is an int64 count of nanoseconds. *)
Definition Duration := Z.
Definition Time := Z.

Definition Nanosecond : Duration := 1.
Definition Microsecond : Duration := 1000 * Nanosecond.
Definition Millisecond : Duration := 1000 * Microsecond.
Definition Second : Duration := 1000 * Millisecond.

(** [t.Add(d)] *)
Definition Time_Add (t : Time) (d : Duration) : Time := t + d.

(** gorilla/websocket: [TextMessage = 1], [BinaryMessage = 2]. *)
Definition websocket_TextMessage : Z := 1.
Definition websocket_BinaryMessage : Z := 2.

(** net/http *)
Definition http_MethodGet : string := "GET".
Definition http_StatusMethodNotAllowed : Z := 405.
Definition http_StatusServiceUnavailable : Z := 503.

(** ** Lines 12-28: constants and error values *)

Definition upgradeFailed : string := "Upgrade failed: ".

Definition WsDefaultPingInterval : Duration := 30 * Second.
Definition WsDefaultPingTimeout : Duration := 60 * Second.
Definition WsDefaultReceiveTimeout : Duration := 60 * Second.
Definition WsDefaultSendTimeout : Duration := 60 * Second.
Definition WsDefaultBufferSize : Z := 1024 * 32.

(** A Go [error] value.  The five package-level variables are created by
    [errors.New], so each is a value of its own, compared by identity;
    every other error comes out of the lower layers and is identified by
    an opaque tag together with the text its [Error()] method returns. *)
Inductive error : Type :=
| ErrorBinaryMessage
| ErrorBadBuffer
| ErrorPacketWrong
| ErrorMethodNotAllowed
| ErrorHttpUpgradeFailed
| LowerError (tag : positive) (text : string).

(** [err.Error()] *)
Definition error_Error (e : error) : string :=
  match e with
  | ErrorBinaryMessage => "Binary messages are not supported"
  | ErrorBadBuffer => "Buffer error"
  | ErrorPacketWrong => "Wrong packet type error"
  | ErrorMethodNotAllowed => "Method not allowed"
  | ErrorHttpUpgradeFailed => "Http upgrade failed"
  | LowerError _ text => text
  end.

(** Modelled from the spec: [errMethodNotAllowed], used by
    [HandleConnection], is not declared in the file.  The spec names the
    error of the wrong-method path [ErrorMethodNotAllowed]. *)
Definition errMethodNotAllowed : error := ErrorMethodNotAllowed.

(** Modelled from the spec: [errHttpUpgradeFailed], used by
    [HandleConnection], is not declared in the file.  The spec names the
    error of the failed-upgrade path [ErrorHttpUpgradeFailed]. *)
Definition errHttpUpgradeFailed : error := ErrorHttpUpgradeFailed.

(** ** Lines 35-38 and 89-97: the configuration structs *)

(** [http.Header] is a [map[string][]string]; [None] is the nil map. *)
Definition http_Header := option (gmap string (list string)).

(** [*tls.Config] is opaque here: a handle, [None] for nil. *)
Definition tls_Config := option positive.

Record WebsocketTransportParams := {
  Params_Headers : http_Header;
  Params_TLSClientConfig : tls_Config
}.

Record WebsocketTransport := {
  PingInterval : Duration;
  PingTimeout : Duration;
  ReceiveTimeout : Duration;
  SendTimeout : Duration;
  BufferSize : Z;
  Headers : http_Header;
  TLSClientConfig : tls_Config
}.

(** [tr.Headers = h] and [tr.TLSClientConfig = c] on a struct value. *)
Definition set_Headers (h : http_Header) (tr : WebsocketTransport) :=
  {| PingInterval := PingInterval tr;
     PingTimeout := PingTimeout tr;
     ReceiveTimeout := ReceiveTimeout tr;
     SendTimeout := SendTimeout tr;
     BufferSize := BufferSize tr;
     Headers := h;
     TLSClientConfig := TLSClientConfig tr |}.

Definition set_TLSClientConfig (c : tls_Config) (tr : WebsocketTransport) :=
  {| PingInterval := PingInterval tr;
     PingTimeout := PingTimeout tr;
     ReceiveTimeout := ReceiveTimeout tr;
     SendTimeout := SendTimeout tr;
     BufferSize := BufferSize tr;
     Headers := Headers tr;
     TLSClientConfig := c |}.

(** A [*WebsocketTransport]: a location of the heap.  A location that
    holds nothing stands for a pointer that cannot be dereferenced (nil);
    [nil] itself is never handed out by the allocator. *)
Definition loc := positive.
Definition nil_loc : loc := 1%positive.

(** [*http.Request]: the method is all the package looks at. *)
Record Request := {
  Method : string;
  RequestURI : string
}.

(** [websocket.Dialer] and [websocket.Upgrader], with the fields the
    package sets. *)
Record Dialer := { Dialer_TLSClientConfig : tls_Config }.
Record Upgrader := { ReadBufferSize : Z; WriteBufferSize : Z }.

(** ** The lower layers

    The operations of gorilla/websocket, io/ioutil, time and net/http the
    package calls.  Each takes the state of the lower layers and returns
    its Go results with the new state; nothing is assumed about them. *)
Class Lower := {
  LState : Type;
  Conn : Type;            (* *websocket.Conn *)
  Reader : Type;          (* io.Reader *)
  Writer : Type;          (* io.WriteCloser *)
  ResponseWriter : Type;  (* http.ResponseWriter *)
  time_Now : LState -> Time * LState;
  conn_SetReadDeadline : Conn -> Time -> LState -> option error * LState;
  conn_SetWriteDeadline : Conn -> Time -> LState -> option error * LState;
  conn_NextReader : Conn -> LState -> (Z * Reader * option error) * LState;
  ioutil_ReadAll : Reader -> LState -> (list byte * option error) * LState;
  conn_NextWriter : Conn -> Z -> LState -> (Writer * option error) * LState;
  writer_Write : Writer -> list byte -> LState -> (Z * option error) * LState;
  writer_Close : Writer -> LState -> option error * LState;
  conn_Close : Conn -> LState -> option error * LState;
  dialer_Dial :
    Dialer -> string -> http_Header -> LState -> (Conn * option error) * LState;
  upgrader_Upgrade :
    Upgrader -> ResponseWriter -> Request -> LState ->
    (Conn * option error) * LState;
  http_Error : ResponseWriter -> string -> Z -> LState -> unit * LState
}.

Declare Scope go_scope.
Delimit Scope go_scope with go.

Section Transport.
Context {L : Lower}.

(** A call on the lower layers, as recorded in the world. *)
Inductive Call : Type :=
| CallNow
| CallSetReadDeadline (c : Conn) (t : Time)
| CallSetWriteDeadline (c : Conn) (t : Time)
| CallNextReader (c : Conn)
| CallReadAll (r : Reader)
| CallNextWriter (c : Conn) (messageType : Z)
| CallWrite (w : Writer) (p : list byte)
| CallWriterClose (w : Writer)
| CallConnClose (c : Conn)
| CallDial (d : Dialer) (url : string) (h : http_Header)
| CallUpgrade (u : Upgrader) (w : ResponseWriter) (r : Request)
| CallHttpError (w : ResponseWriter) (body : string) (code : Z).

Record World := {
  transports : gmap loc WebsocketTransport;
  lower : LState;
  calls : list Call
}.

(** The monad of the package's code: state passing over [World], [None]
    for a panic. *)
Definition M (A : Type) : Type := World -> option (A * World).

Definition ret {A} (a : A) : M A := fun w => Some (a, w).

Definition bind {A B} (m : M A) (k : A -> M B) : M B :=
  fun w => match m w with
           | Some (a, w') => k a w'
           | None => None
           end.

Definition panic {A} : M A := fun _ => None.

Notation "x <- m ; k" := (bind m (fun x => k))
  (at level 20, m at level 100, k at level 200) : go_scope.
Notation "' p <- m ; k" := (bind m (fun p => k))
  (at level 20, p pattern, m at level 100, k at level 200) : go_scope.
Notation "m ;; k" := (bind m (fun _ => k))
  (at level 100, k at level 200, right associativity) : go_scope.
Local Open Scope go_scope.

(** A call [c] on the lower layers, run by [f]: the call is recorded and
    the state of the lower layers replaced. *)
Definition lower_call {X} (c : Call) (f : LState -> X * LState) : M X :=
  fun w =>
    let '(x, s) := f (lower w) in
    Some (x, {| transports := transports w;
                lower := s;
                calls := calls w ++ [c] |}).

(** Heap operations on [*WebsocketTransport]. *)

(** [&WebsocketTransport{...}]: a location not in use and not nil. *)
Definition new_transport (tr : WebsocketTransport) : M loc :=
  fun w =>
    let p := fresh ({[nil_loc]} ∪ dom (transports w)) in
    Some (p, {| transports := <[p := tr]> (transports w);
                lower := lower w;
                calls := calls w |}).

(** [*p], as in the field reads [p.PingInterval]. *)
Definition load (p : loc) : M WebsocketTransport :=
  fun w => match transports w !! p with
           | Some tr => Some (tr, w)
           | None => None
           end.

(** [p.f = v], given as the update of the struct. *)
Definition update (p : loc) (f : WebsocketTransport -> WebsocketTransport)
  : M unit :=
  fun w => match transports w !! p with
           | Some tr => Some (tt, {| transports := <[p := f tr]> (transports w);
                                    lower := lower w;
                                    calls := calls w |})
           | None => None
           end.

(** ** Lines 30-33: the connection *)

Record WebsocketConnection := {
  socket : Conn;
  transport : loc
}.

(** [[]byte(message)] and [string(data)]: a Go string is its bytes. *)
Definition bytes_of_string (message : string) : list byte :=
  list_byte_of_string message.
Definition string_of_bytes (data : list byte) : string :=
  string_of_list_byte data.

(** ** Lines 39-63: [GetMessage] *)
Definition GetMessage (wsc : WebsocketConnection)
  : M (string * option error) :=
  now <- lower_call CallNow time_Now ;
  tr <- load (transport wsc) ;
  let deadline := Time_Add now (ReceiveTimeout tr) in
  lower_call (CallSetReadDeadline (socket wsc) deadline)
             (conn_SetReadDeadline (socket wsc) deadline) ;;
  '(msgType, reader, err) <-
     lower_call (CallNextReader (socket wsc)) (conn_NextReader (socket wsc)) ;
  match err with
  | Some e => ret ("", Some e)
  | None =>
    (* support only text messages exchange *)
    if negb (msgType =? websocket_TextMessage)%Z then
      ret ("", Some ErrorBinaryMessage)
    else
      '(data, err) <- lower_call (CallReadAll reader) (ioutil_ReadAll reader) ;
      match err with
      | Some _ => ret ("", Some ErrorBadBuffer)
      | None =>
        let text := string_of_bytes data in
        (* empty messages are not allowed *)
        if (Z.of_nat (String.length text) =? 0)%Z then
          ret ("", Some ErrorPacketWrong)
        else
          ret (text, None)
      end
  end.

(** ** Lines 65-79: [WriteMessage] *)
Definition WriteMessage (wsc : WebsocketConnection) (message : string)
  : M (option error) :=
  now <- lower_call CallNow time_Now ;
  tr <- load (transport wsc) ;
  let deadline := Time_Add now (SendTimeout tr) in
  lower_call (CallSetWriteDeadline (socket wsc) deadline)
             (conn_SetWriteDeadline (socket wsc) deadline) ;;
  '(writer, err) <-
     lower_call (CallNextWriter (socket wsc) websocket_TextMessage)
                (conn_NextWriter (socket wsc) websocket_TextMessage) ;
  match err with
  | Some e => ret (Some e)
  | None =>
    '(_, err) <- lower_call (CallWrite writer (bytes_of_string message))
                            (writer_Write writer (bytes_of_string message)) ;
    match err with
    | Some e => ret (Some e)
    | None =>
      err <- lower_call (CallWriterClose writer) (writer_Close writer) ;
      match err with
      | Some e => ret (Some e)
      | None => ret None
      end
    end
  end.

(** ** Lines 81-83: [Close] *)
Definition Close (wsc : WebsocketConnection) : M unit :=
  lower_call (CallConnClose (socket wsc)) (conn_Close (socket wsc)) ;;
  ret tt.

(** ** Lines 85-87: [PingParams] *)
Definition PingParams (wsc : WebsocketConnection) : M (Duration * Duration) :=
  tr <- load (transport wsc) ;
  ret (PingInterval tr, PingTimeout tr).

(** ** Lines 99-107: [Connect] *)
Definition Connect (t : loc) (url : string)
  : M (option WebsocketConnection * option error) :=
  tr <- load t ;
  let dialer := {| Dialer_TLSClientConfig := TLSClientConfig tr |} in
  '(socket, err) <- lower_call (CallDial dialer url (Headers tr))
                               (dialer_Dial dialer url (Headers tr)) ;
  match err with
  | Some e => ret (None, Some e)
  | None => ret (Some {| socket := socket; transport := t |}, None)
  end.

(** ** Lines 109-126: [HandleConnection] *)
Definition HandleConnection (t : loc) (w : ResponseWriter) (r : Request)
  : M (option WebsocketConnection * option error) :=
  if negb (String.eqb (Method r) http_MethodGet) then
    lower_call
      (CallHttpError w (upgradeFailed ++ error_Error errMethodNotAllowed)
                     http_StatusServiceUnavailable)
      (http_Error w (upgradeFailed ++ error_Error errMethodNotAllowed)
                  http_StatusServiceUnavailable) ;;
    ret (None, Some errMethodNotAllowed)
  else
    tr <- load t ;
    let upgrader := {| ReadBufferSize := BufferSize tr;
                       WriteBufferSize := BufferSize tr |} in
    '(socket, err) <- lower_call (CallUpgrade upgrader w r)
                                 (upgrader_Upgrade upgrader w r) ;
    match err with
    | Some e =>
      lower_call
        (CallHttpError w (upgradeFailed ++ error_Error e)
                       http_StatusServiceUnavailable)
        (http_Error w (upgradeFailed ++ error_Error e)
                    http_StatusServiceUnavailable) ;;
      ret (None, Some errHttpUpgradeFailed)
    | None => ret (Some {| socket := socket; transport := t |}, None)
    end.

(** ** Line 131: [Serve] does nothing *)
Definition Serve (wst : loc) (w : ResponseWriter) (r : Request) : M unit :=
  ret tt.

(** ** Lines 136-144: [GeDefaultWebsocketTransport] *)
Definition GeDefaultWebsocketTransport : M loc :=
  new_transport
    {| PingInterval := WsDefaultPingInterval;
       PingTimeout := WsDefaultPingTimeout;
       ReceiveTimeout := WsDefaultReceiveTimeout;
       SendTimeout := WsDefaultSendTimeout;
       BufferSize := WsDefaultBufferSize;
       Headers := None;
       TLSClientConfig := None |}.

(** Modelled from the spec: [GetDefaultWebsocketTransport], called by
    [TlsWebsocketTransport], is not declared in the file, which declares
    [GeDefaultWebsocketTransport].  The spec knows one default-config
    factory and has the TLS factory seeded from it. *)
Definition GetDefaultWebsocketTransport : M loc := GeDefaultWebsocketTransport.

(** ** Lines 147-152: [TlsWebsocketTransport] *)
Definition TlsWebsocketTransport (Headers : http_Header)
    (TLSClientConfig : tls_Config) : M loc :=
  tr <- GetDefaultWebsocketTransport ;
  update tr (set_Headers Headers) ;;
  update tr (set_TLSClientConfig TLSClientConfig) ;;
  ret tr.

(** ** Auxiliary definitions for the statements *)

(** The world [w] after the calls [cs], which left the lower layers in
    state [s]; the heap is untouched. *)
Definition after (w : World) (s : LState) (cs : list Call) : World :=
  {| transports := transports w; lower := s; calls := calls w ++ cs |}.

(** The deadline [GetMessage] sets, and the state of the lower layers
    when it then asks for the next frame. *)
Definition read_deadline (tr : WebsocketTransport) (s : LState) : Time :=
  Time_Add (time_Now s).1 (ReceiveTimeout tr).

Definition read_armed (wsc : WebsocketConnection) (tr : WebsocketTransport)
    (s : LState) : LState :=
  (conn_SetReadDeadline (socket wsc) (read_deadline tr s) (time_Now s).2).2.

(** The same for [WriteMessage]. *)
Definition write_deadline (tr : WebsocketTransport) (s : LState) : Time :=
  Time_Add (time_Now s).1 (SendTimeout tr).

Definition write_armed (wsc : WebsocketConnection) (tr : WebsocketTransport)
    (s : LState) : LState :=
  (conn_SetWriteDeadline (socket wsc) (write_deadline tr s) (time_Now s).2).2.

(** The spec's words for the result of [WriteMessage]: of the three steps
    opening, writing and finalizing, the first failure wins. *)
Definition first_failure (opening writing finalizing : option error)
  : option error :=
  match opening, writing with
  | Some e, _ => Some e
  | None, Some e => Some e
  | None, None => finalizing
  end.

(** Read and write activity on a connection, and running a sequence of
    it; the results of the calls are dropped. *)
Inductive Activity : Type :=
| DoRead
| DoWrite (message : string).

Definition perform (wsc : WebsocketConnection) (a : Activity) : M unit :=
  match a with
  | DoRead => GetMessage wsc ;; ret tt
  | DoWrite message => WriteMessage wsc message ;; ret tt
  end.

Fixpoint perform_all (wsc : WebsocketConnection) (acts : list Activity)
  : M unit :=
  match acts with
  | [] => ret tt
  | a :: acts' => perform wsc a ;; perform_all wsc acts'
  end.

End Transport.

Arguments Call : clear implicits.
Arguments World : clear implicits.
Arguments WebsocketConnection : clear implicits.

(** ** A simulated lower layer

    One socket, whose behaviour is scripted: the frames (or errors) the
    next reads meet, the faults of the three writing steps, the outcome of
    a handshake.  Frames closed by the writer pile up in [sim_sent];
    responses written with [http.Error] in [sim_responses]. *)
Module Sim.

Record Frame := {
  frame_type : Z;
  frame_body : list byte;
  frame_fault : option error     (* met while the body is read *)
}.

Record State := {
  sim_clock : Time;
  sim_read_deadline : option Time;
  sim_write_deadline : option Time;
  sim_incoming : list (error + Frame);
  sim_open_fault : option error;
  sim_write_fault : option error;
  sim_close_fault : option error;
  sim_writing : list byte;
  sim_sent : list Frame;
  sim_handshake : option error;
  sim_closed : bool;
  sim_responses : list (string * Z)
}.

Definition no_frame : Frame :=
  {| frame_type := 0; frame_body := []; frame_fault := None |}.

Definition timeout : error := LowerError 2 "i/o timeout".

Definition set_clock (t : Time) (s : State) : State :=
  {| sim_clock := t;
     sim_read_deadline := sim_read_deadline s;
     sim_write_deadline := sim_write_deadline s;
     sim_incoming := sim_incoming s;
     sim_open_fault := sim_open_fault s;
     sim_write_fault := sim_write_fault s;
     sim_close_fault := sim_close_fault s;
     sim_writing := sim_writing s;
     sim_sent := sim_sent s;
     sim_handshake := sim_handshake s;
     sim_closed := sim_closed s;
     sim_responses := sim_responses s |}.

Definition set_read_deadline (t : Time) (s : State) : State :=
  {| sim_clock := sim_clock s;
     sim_read_deadline := Some t;
     sim_write_deadline := sim_write_deadline s;
     sim_incoming := sim_incoming s;
     sim_open_fault := sim_open_fault s;
     sim_write_fault := sim_write_fault s;
     sim_close_fault := sim_close_fault s;
     sim_writing := sim_writing s;
     sim_sent := sim_sent s;
     sim_handshake := sim_handshake s;
     sim_closed := sim_closed s;
     sim_responses := sim_responses s |}.

Definition set_write_deadline (t : Time) (s : State) : State :=
  {| sim_clock := sim_clock s;
     sim_read_deadline := sim_read_deadline s;
     sim_write_deadline := Some t;
     sim_incoming := sim_incoming s;
     sim_open_fault := sim_open_fault s;
     sim_write_fault := sim_write_fault s;
     sim_close_fault := sim_close_fault s;
     sim_writing := sim_writing s;
     sim_sent := sim_sent s;
     sim_handshake := sim_handshake s;
     sim_closed := sim_closed s;
     sim_responses := sim_responses s |}.

Definition set_incoming (fs : list (error + Frame)) (s : State) : State :=
  {| sim_clock := sim_clock s;
     sim_read_deadline := sim_read_deadline s;
     sim_write_deadline := sim_write_deadline s;
     sim_incoming := fs;
     sim_open_fault := sim_open_fault s;
     sim_write_fault := sim_write_fault s;
     sim_close_fault := sim_close_fault s;
     sim_writing := sim_writing s;
     sim_sent := sim_sent s;
     sim_handshake := sim_handshake s;
     sim_closed := sim_closed s;
     sim_responses := sim_responses s |}.

Definition set_writing (p : list byte) (sent : list Frame) (s : State)
  : State :=
  {| sim_clock := sim_clock s;
     sim_read_deadline := sim_read_deadline s;
     sim_write_deadline := sim_write_deadline s;
     sim_incoming := sim_incoming s;
     sim_open_fault := sim_open_fault s;
     sim_write_fault := sim_write_fault s;
     sim_close_fault := sim_close_fault s;
     sim_writing := p;
     sim_sent := sent;
     sim_handshake := sim_handshake s;
     sim_closed := sim_closed s;
     sim_responses := sim_responses s |}.

Definition set_closed (s : State) : State :=
  {| sim_clock := sim_clock s;
     sim_read_deadline := sim_read_deadline s;
     sim_write_deadline := sim_write_deadline s;
     sim_incoming := sim_incoming s;
     sim_open_fault := sim_open_fault s;
     sim_write_fault := sim_write_fault s;
     sim_close_fault := sim_close_fault s;
     sim_writing := sim_writing s;
     sim_sent := sim_sent s;
     sim_handshake := sim_handshake s;
     sim_closed := true;
     sim_responses := sim_responses s |}.

Definition add_response (body : string) (code : Z) (s : State) : State :=
  {| sim_clock := sim_clock s;
     sim_read_deadline := sim_read_deadline s;
     sim_write_deadline := sim_write_deadline s;
     sim_incoming := sim_incoming s;
     sim_open_fault := sim_open_fault s;
     sim_write_fault := sim_write_fault s;
     sim_close_fault := sim_close_fault s;
     sim_writing := sim_writing s;
     sim_sent := sim_sent s;
     sim_handshake := sim_handshake s;
     sim_closed := sim_closed s;
     sim_responses := sim_responses s ++ [(body, code)] |}.

Definition next_reader (s : State) : (Z * Frame * option error) * State :=
  match sim_incoming s with
  | [] => ((0, no_frame, Some timeout), s)
  | inl e :: rest => ((0, no_frame, Some e), set_incoming rest s)
  | inr f :: rest => ((frame_type f, f, None), set_incoming rest s)
  end.

Definition next_writer (messageType : Z) (s : State)
  : (Z * option error) * State :=
  match sim_open_fault s with
  | Some e => ((0, Some e), s)
  | None => ((messageType, None), set_writing [] (sim_sent s) s)
  end.

Definition write (p : list byte) (s : State) : (Z * option error) * State :=
  match sim_write_fault s with
  | Some e => ((0, Some e), s)
  | None => ((Z.of_nat (length p), None),
             set_writing (sim_writing s ++ p) (sim_sent s) s)
  end.

Definition close_writer (messageType : Z) (s : State)
  : option error * State :=
  match sim_close_fault s with
  | Some e => (Some e, s)
  | None =>
    (None,
     set_writing []
       (sim_sent s ++ [{| frame_type := messageType;
                          frame_body := sim_writing s;
                          frame_fault := None |}]) s)
  end.

#[export] Instance layer : Lower := {|
  LState := State;
  Conn := unit;
  Reader := Frame;
  Writer := Z;
  ResponseWriter := unit;
  time_Now := fun s => (sim_clock s, set_clock (sim_clock s + 1) s);
  conn_SetReadDeadline := fun _ t s => (None, set_read_deadline t s);
  conn_SetWriteDeadline := fun _ t s => (None, set_write_deadline t s);
  conn_NextReader := fun _ => next_reader;
  ioutil_ReadAll := fun r s => ((frame_body r, frame_fault r), s);
  conn_NextWriter := fun _ => next_writer;
  writer_Write := fun _ => write;
  writer_Close := close_writer;
  conn_Close := fun _ s => (None, set_closed s);
  dialer_Dial := fun _ _ _ s => ((tt, sim_handshake s), s);
  upgrader_Upgrade := fun _ _ _ s => ((tt, sim_handshake s), s);
  http_Error := fun _ body code s => (tt, add_response body code s)
|}.

(** A quiet socket at time 0 with the given script. *)
Definition state (incoming : list (error + Frame))
    (open_fault write_fault close_fault handshake : option error) : State :=
  {| sim_clock := 0;
     sim_read_deadline := None;
     sim_write_deadline := None;
     sim_incoming := incoming;
     sim_open_fault := open_fault;
     sim_write_fault := write_fault;
     sim_close_fault := close_fault;
     sim_writing := [];
     sim_sent := [];
     sim_handshake := handshake;
     sim_closed := false;
     sim_responses := [] |}.

(** The network between two ends: what one end has sent is what the
    other end's next reads meet. *)
Definition deliver (sender receiver : State) : State :=
  set_incoming (sim_incoming receiver ++ map inr (sim_sent sender)) receiver.

(** The transport the examples run with, at location 2 of the heap. *)
Definition config : WebsocketTransport :=
  {| PingInterval := 25 * Second;
     PingTimeout := 50 * Second;
     ReceiveTimeout := 7 * Second;
     SendTimeout := 9 * Second;
     BufferSize := 4096;
     Headers := None;
     TLSClientConfig := None |}.

Definition world (s : State) : World layer :=
  {| transports := {[ 2%positive := config ]}; lower := s; calls := [] |}.

Definition conn : WebsocketConnection layer :=
  {| socket := tt; transport := 2%positive |}.

Definition text (body : string) : error + Frame :=
  inr {| frame_type := websocket_TextMessage;
         frame_body := list_byte_of_string body;
         frame_fault := None |}.

Definition binary (body : list byte) : error + Frame :=
  inr {| frame_type := websocket_BinaryMessage;
         frame_body := body;
         frame_fault := None |}.

(** A round trip between two ends: the state in which the sender is left
    by writing [message] on a quiet, faultless socket, and the world of a
    peer to which the network has delivered what was sent. *)
Definition quiet : State := state [] None None None None.

Definition sent_by (message : string) : State :=
  match WriteMessage conn message (world quiet) with
  | Some (_, w') => lower w'
  | None => quiet
  end.

Definition peer_world (message : string) : World layer :=
  world (deliver (sent_by message) quiet).

End Sim.

(** ** A lower layer that shows what reaches the peer

    The simulated socket of [Sim], with the response of one HTTP request
    as net/http and gorilla/websocket document it:

    - net/http sends the status line with the first [WriteHeader] (or
      the first [Write], as 200); a later [WriteHeader] changes nothing,
      a later [Write] adds to the body.  [http.Error(w, msg, code)] is
      [w.WriteHeader(code)] followed by writing [msg] and a newline.
    - gorilla's [Upgrade]: "If the upgrade fails, then Upgrade replies to
      the client with an HTTP error response": by default
      [http.Error(w, http.StatusText(status), status)], with the status
      400 for a request that is no websocket handshake. *)
Module Peer.

Record Response := {
  status : option Z;       (* None: nothing sent yet *)
  body : string
}.

Definition nothing_sent : Response := {| status := None; body := "" |}.

Definition newline : string := String "010"%char "".

Definition http_StatusBadRequest : Z := 400.

Definition write_header (code : Z) (r : Response) : Response :=
  match status r with
  | Some _ => r
  | None => {| status := Some code; body := body r |}
  end.

Definition write_body (data : string) (r : Response) : Response :=
  let r' := write_header 200 r in
  {| status := status r'; body := body r' ++ data |}.

Definition error_response (msg : string) (code : Z) (r : Response)
  : Response :=
  write_body (msg ++ newline) (write_header code r).

Definition State : Type := Sim.State * Response.

Definition on_socket {X} (f : Sim.State -> X * Sim.State) (s : State)
  : X * State :=
  let '(x, s1) := f s.1 in (x, (s1, s.2)).

Definition upgrade (s : State) : (unit * option error) * State :=
  match Sim.sim_handshake s.1 with
  | Some e =>
    ((tt, Some e),
     (s.1, error_response "Bad Request" http_StatusBadRequest s.2))
  | None => ((tt, None), s)
  end.

#[export] Instance layer : Lower := {|
  LState := State;
  Conn := unit;
  Reader := Sim.Frame;
  Writer := Z;
  ResponseWriter := unit;
  time_Now := on_socket (time_Now (Lower := Sim.layer));
  conn_SetReadDeadline := fun c t =>
    on_socket (conn_SetReadDeadline (Lower := Sim.layer) c t);
  conn_SetWriteDeadline := fun c t =>
    on_socket (conn_SetWriteDeadline (Lower := Sim.layer) c t);
  conn_NextReader := fun c =>
    on_socket (conn_NextReader (Lower := Sim.layer) c);
  ioutil_ReadAll := fun r =>
    on_socket (ioutil_ReadAll (Lower := Sim.layer) r);
  conn_NextWriter := fun c messageType =>
    on_socket (conn_NextWriter (Lower := Sim.layer) c messageType);
  writer_Write := fun wr p =>
    on_socket (writer_Write (Lower := Sim.layer) wr p);
  writer_Close := fun wr => on_socket (writer_Close (Lower := Sim.layer) wr);
  conn_Close := fun c => on_socket (conn_Close (Lower := Sim.layer) c);
  dialer_Dial := fun d url h =>
    on_socket (dialer_Dial (Lower := Sim.layer) d url h);
  upgrader_Upgrade := fun _ _ _ => upgrade;
  http_Error := fun _ msg code s => (tt, (s.1, error_response msg code s.2))
|}.

(** A server whose handshake meets [handshake], before anything is sent,
    with the transport of the examples at location 2. *)
Definition world (handshake : option error) : World layer :=
  {| transports := {[ 2%positive := Sim.config ]};
     lower := (Sim.state [] None None None handshake, nothing_sent);
     calls := [] |}.

(** What the peer has been sent in world [w]. *)
Definition sent (w : World layer) : Response := (lower w).2.

End Peer.

(** ** The operations of the package, as a caller may sequence them

    Every method and function of the file except the two factories; the
    results are dropped. *)
Inductive Operation `{L : Lower} : Type :=
| OpGetMessage (wsc : WebsocketConnection L)
| OpWriteMessage (wsc : WebsocketConnection L) (message : string)
| OpClose (wsc : WebsocketConnection L)
| OpPingParams (wsc : WebsocketConnection L)
| OpConnect (t : loc) (url : string)
| OpHandleConnection (t : loc) (w : ResponseWriter) (r : Request)
| OpServe (t : loc) (w : ResponseWriter) (r : Request).

Definition run_operation `{L : Lower} (op : Operation) : M unit :=
  match op with
  | OpGetMessage wsc => bind (GetMessage wsc) (fun _ => ret tt)
  | OpWriteMessage wsc message =>
    bind (WriteMessage wsc message) (fun _ => ret tt)
  | OpClose wsc => Close wsc
  | OpPingParams wsc => bind (PingParams wsc) (fun _ => ret tt)
  | OpConnect t url => bind (Connect t url) (fun _ => ret tt)
  | OpHandleConnection t w r =>
    bind (HandleConnection t w r) (fun _ => ret tt)
  | OpServe t w r => Serve t w r
  end.

Fixpoint run_operations `{L : Lower} (ops : list Operation) : M unit :=
  match ops with
  | [] => ret tt
  | op :: ops' => bind (run_operation op) (fun _ => run_operations ops')
  end.

(** The transport [TlsWebsocketTransport] leaves at the pointer it
    returns. *)
Definition tls_transport (headers : http_Header) (tlsConfig : tls_Config)
  : WebsocketTransport :=
  {| PingInterval := WsDefaultPingInterval;
     PingTimeout := WsDefaultPingTimeout;
     ReceiveTimeout := WsDefaultReceiveTimeout;
     SendTimeout := WsDefaultSendTimeout;
     BufferSize := WsDefaultBufferSize;
     Headers := headers;
     TLSClientConfig := tlsConfig |}.

(** The calls [w'] records beyond those of [w]. *)
Definition new_calls `{L : Lower} (w w' : World L) : list (Call L) :=
  drop (length (calls w)) (calls w').

(** Whether a call is a response written with [http.Error]. *)
Definition is_response `{L : Lower} (c : Call L) : bool :=
  match c with
  | CallHttpError _ _ _ => true
  | _ => false
  end.

(** * Proofs *)

(** ** Running the monad *)

Section Running.
Context {L : Lower}.

Lemma after_nil (w : World L) : after w (lower w) [] = w.
Proof. destruct w; unfold after; cbn. by rewrite app_nil_r. Qed.

Lemma after_after (w : World L) s cs s' cs' :
  after (after w s cs) s' cs' = after w s' (cs ++ cs')%list.
Proof. unfold after; cbn. by rewrite app_assoc. Qed.

Lemma transports_after (w : World L) s cs :
  transports (after w s cs) = transports w.
Proof. done. Qed.

Lemma lower_after (w : World L) s cs : lower (after w s cs) = s.
Proof. done. Qed.

Lemma calls_after (w : World L) s cs : calls (after w s cs) = (calls w ++ cs)%list.
Proof. done. Qed.

Lemma bind_ret {A B} (a : A) (k : A -> M B) (w : World L) :
  bind (ret a) k w = k a w.
Proof. done. Qed.

Lemma bind_lower_call {X B} c (f : LState -> X * LState) (k : X -> M B)
    (w : World L) :
  bind (lower_call c f) k w = k (f (lower w)).1 (after w (f (lower w)).2 [c]).
Proof. unfold bind, lower_call. by destruct (f (lower w)). Qed.

Lemma bind_load {B} p tr (k : WebsocketTransport -> M B) (w : World L) :
  transports w !! p = Some tr ->
  bind (load p) k w = k tr w.
Proof. unfold bind, load. by intros ->. Qed.

Lemma bind_load_None {B} p (k : WebsocketTransport -> M B) (w : World L) :
  transports w !! p = None ->
  bind (load p) k w = None.
Proof. unfold bind, load. by intros ->. Qed.

End Running.

(** Runs the straight-line prefix of a computation: each call on the
    lower layers, each load of an allocated transport. *)
Ltac go_run :=
  repeat first
    [ rewrite bind_lower_call
    | rewrite bind_ret
    | erewrite bind_load by (rewrite ?transports_after; eassumption)
    | rewrite after_after
    | rewrite lower_after ];
  cbn [app].

(** ** [GetMessage] *)

(** C2.  When the socket yields a frame whose type is not the text type,
    [GetMessage] returns no string and [ErrorBinaryMessage], and the
    body of the frame is not read. *)
Theorem GetMessage_not_text `{L : Lower} (wsc : WebsocketConnection L)
    (w : World L) (tr : WebsocketTransport)
    (msgType : Z) (reader : Reader) (s : LState) :
  transports w !! transport wsc = Some tr ->
  conn_NextReader (socket wsc) (read_armed wsc tr (lower w))
    = ((msgType, reader, None), s) ->
  msgType <> websocket_TextMessage ->
  GetMessage wsc w
    = Some (("", Some ErrorBinaryMessage),
            after w s [CallNow;
                       CallSetReadDeadline (socket wsc)
                                           (read_deadline tr (lower w));
                       CallNextReader (socket wsc)]).
Proof.
  intros Htr Hnext Hty.
  unfold GetMessage.
  rewrite <- (after_nil w) at 1.
  go_run.
  fold (read_deadline tr (lower w)). fold (read_armed wsc tr (lower w)).
  rewrite Hnext. cbn.
  destruct (Z.eqb_spec msgType websocket_TextMessage) as [->|_]; [done|].
  reflexivity.
Qed.

Lemma GetMessage_not_text_witness :
  GetMessage Sim.conn
    (Sim.world (Sim.state [Sim.binary [x01; x02]] None None None None))
  = Some (("", Some ErrorBinaryMessage),
          after (Sim.world (Sim.state [Sim.binary [x01; x02]]
                                      None None None None))
                (Sim.set_read_deadline (7 * Second)
                   (Sim.set_clock 1 (Sim.state [] None None None None)))
                ([CallNow; CallSetReadDeadline (socket Sim.conn) (7 * Second);
                  CallNextReader (socket Sim.conn)] : list (Call Sim.layer))).
Proof.
  refine (GetMessage_not_text (L:=Sim.layer) Sim.conn _ Sim.config websocket_BinaryMessage
            {| Sim.frame_type := websocket_BinaryMessage;
               Sim.frame_body := [x01; x02];
               Sim.frame_fault := None |} _ _ _ _).
  - reflexivity.
  - reflexivity.
  - unfold websocket_BinaryMessage, websocket_TextMessage. lia.
Defined.

(** What [GetMessage] does with a text frame whose body is read in full. *)
Lemma GetMessage_text `{L : Lower} (wsc : WebsocketConnection L)
    (w : World L) (tr : WebsocketTransport)
    (reader : Reader) (s s' : LState) (data : list byte) :
  transports w !! transport wsc = Some tr ->
  conn_NextReader (socket wsc) (read_armed wsc tr (lower w))
    = ((websocket_TextMessage, reader, None), s) ->
  ioutil_ReadAll reader s = ((data, None), s') ->
  GetMessage wsc w
    = Some (if (Z.of_nat (String.length (string_of_bytes data)) =? 0)%Z
            then ("", Some ErrorPacketWrong)
            else (string_of_bytes data, None),
            after w s' [CallNow;
                        CallSetReadDeadline (socket wsc)
                                            (read_deadline tr (lower w));
                        CallNextReader (socket wsc);
                        CallReadAll reader]).
Proof.
  intros Htr Hnext Hread.
  unfold GetMessage.
  rewrite <- (after_nil w) at 1.
  go_run.
  fold (read_deadline tr (lower w)). fold (read_armed wsc tr (lower w)).
  rewrite Hnext. cbn.
  go_run. rewrite Hread. cbn.
  by destruct (_ =? _)%Z.
Qed.

(** C3.  When the socket yields a text frame whose body, fully read,
    decodes to a string of length zero, [GetMessage] returns
    [ErrorPacketWrong], not the empty string with a nil error. *)
Theorem GetMessage_empty_text `{L : Lower} (wsc : WebsocketConnection L)
    (w : World L) (tr : WebsocketTransport)
    (reader : Reader) (s s' : LState) (data : list byte) :
  transports w !! transport wsc = Some tr ->
  conn_NextReader (socket wsc) (read_armed wsc tr (lower w))
    = ((websocket_TextMessage, reader, None), s) ->
  ioutil_ReadAll reader s = ((data, None), s') ->
  String.length (string_of_bytes data) = 0%nat ->
  GetMessage wsc w
    = Some (("", Some ErrorPacketWrong),
            after w s' [CallNow;
                        CallSetReadDeadline (socket wsc)
                                            (read_deadline tr (lower w));
                        CallNextReader (socket wsc);
                        CallReadAll reader]).
Proof.
  intros Htr Hnext Hread Hlen.
  rewrite (GetMessage_text wsc w tr reader s s' data Htr Hnext Hread).
  by rewrite Hlen.
Qed.

Lemma GetMessage_empty_text_witness :
  GetMessage Sim.conn (Sim.world (Sim.state [Sim.text ""] None None None None))
  = Some (("", Some ErrorPacketWrong),
          after (Sim.world (Sim.state [Sim.text ""] None None None None))
                (Sim.set_read_deadline (7 * Second)
                   (Sim.set_clock 1 (Sim.state [] None None None None)))
                ([CallNow; CallSetReadDeadline (socket Sim.conn) (7 * Second);
                  CallNextReader (socket Sim.conn);
                  @CallReadAll Sim.layer
                    {| Sim.frame_type := websocket_TextMessage;
                       Sim.frame_body := [];
                       Sim.frame_fault := None |}]
                 : list (Call Sim.layer))).
Proof.
  refine (GetMessage_empty_text (L:=Sim.layer) Sim.conn _ Sim.config
            {| Sim.frame_type := websocket_TextMessage;
               Sim.frame_body := [];
               Sim.frame_fault := None |} _ _ [] _ _ _ _).
  - reflexivity.
  - reflexivity.
  - reflexivity.
  - reflexivity.
Defined.

(** C4.  An error of [NextReader] is returned as it is, whatever it is;
    an error met while the body of a text frame is read is replaced by
    [ErrorBadBuffer], whatever it is. *)
Theorem GetMessage_errors `{L : Lower} (wsc : WebsocketConnection L)
    (w : World L) (tr : WebsocketTransport) :
  transports w !! transport wsc = Some tr ->
  (forall msgType reader e s,
     conn_NextReader (socket wsc) (read_armed wsc tr (lower w))
       = ((msgType, reader, Some e), s) ->
     GetMessage wsc w
       = Some (("", Some e),
               after w s [CallNow;
                          CallSetReadDeadline (socket wsc)
                                              (read_deadline tr (lower w));
                          CallNextReader (socket wsc)]))
  /\
  (forall reader s data e s',
     conn_NextReader (socket wsc) (read_armed wsc tr (lower w))
       = ((websocket_TextMessage, reader, None), s) ->
     ioutil_ReadAll reader s = ((data, Some e), s') ->
     GetMessage wsc w
       = Some (("", Some ErrorBadBuffer),
               after w s' [CallNow;
                           CallSetReadDeadline (socket wsc)
                                               (read_deadline tr (lower w));
                           CallNextReader (socket wsc);
                           CallReadAll reader])).
Proof.
  intros Htr. split.
  - intros msgType reader e s Hnext.
    unfold GetMessage.
    rewrite <- (after_nil w) at 1.
    go_run.
    fold (read_deadline tr (lower w)). fold (read_armed wsc tr (lower w)).
    by rewrite Hnext.
  - intros reader s data e s' Hnext Hread.
    unfold GetMessage.
    rewrite <- (after_nil w) at 1.
    go_run.
    fold (read_deadline tr (lower w)). fold (read_armed wsc tr (lower w)).
    rewrite Hnext. cbn.
    go_run. by rewrite Hread.
Qed.

Lemma GetMessage_errors_witness :
  fst <$> GetMessage Sim.conn
            (Sim.world (Sim.state [inl Sim.timeout] None None None None))
    = Some ("", Some Sim.timeout)
  /\
  fst <$> GetMessage Sim.conn
            (Sim.world
               (Sim.state
                  [inr {| Sim.frame_type := websocket_TextMessage;
                          Sim.frame_body := [x68];
                          Sim.frame_fault := Some (LowerError 9 "reset") |}]
                  None None None None))
    = Some ("", Some ErrorBadBuffer).
Proof.
  split.
  - rewrite (proj1 (GetMessage_errors (L:=Sim.layer) Sim.conn
                      (Sim.world (Sim.state [inl Sim.timeout]
                                            None None None None))
                      Sim.config eq_refl)
               0 Sim.no_frame Sim.timeout _ eq_refl).
    reflexivity.
  - rewrite (proj2 (GetMessage_errors (L:=Sim.layer) Sim.conn
                      (Sim.world
                         (Sim.state
                            [inr {| Sim.frame_type := websocket_TextMessage;
                                    Sim.frame_body := [x68];
                                    Sim.frame_fault :=
                                      Some (LowerError 9 "reset") |}]
                            None None None None))
                      Sim.config eq_refl)
               _ _ [x68] (LowerError 9 "reset") _ eq_refl eq_refl).
    reflexivity.
Defined.

(** ** [WriteMessage] *)

(** The run of [WriteMessage], step by step. *)
Lemma WriteMessage_run `{L : Lower} (wsc : WebsocketConnection L)
    (message : string) (w : World L) (tr : WebsocketTransport) :
  transports w !! transport wsc = Some tr ->
  let opened :=
    conn_NextWriter (socket wsc) websocket_TextMessage
                    (write_armed wsc tr (lower w)) in
  let writer := opened.1.1 in
  let written := writer_Write writer (bytes_of_string message) opened.2 in
  let closed := writer_Close writer written.2 in
  let opening :=
    [CallNow;
     CallSetWriteDeadline (socket wsc) (write_deadline tr (lower w));
     CallNextWriter (socket wsc) websocket_TextMessage] in
  let writing := [CallWrite writer (bytes_of_string message)] in
  let finalizing := [CallWriterClose writer] in
  WriteMessage wsc message w
    = Some (first_failure opened.1.2 written.1.2 closed.1,
            match opened.1.2, written.1.2 with
            | Some _, _ => after w opened.2 opening
            | None, Some _ => after w written.2 (opening ++ writing)
            | None, None =>
              after w closed.2 (opening ++ writing ++ finalizing)
            end).
Proof.
  intros Htr. cbv zeta.
  unfold WriteMessage.
  rewrite <- (after_nil w) at 1.
  go_run.
  fold (write_deadline tr (lower w)). fold (write_armed wsc tr (lower w)).
  destruct (conn_NextWriter _ _ _) as [[writer [e1|]] s1]; cbn; [done|].
  go_run.
  destruct (writer_Write _ _ _) as [[n [e2|]] s2]; cbn; [done|].
  go_run.
  destruct (writer_Close _ _) as [[e3|] s3]; cbn; done.
Qed.

(** C5.  [WriteMessage] opens a text-frame writer, writes the bytes of
    the message and closes the writer, in this order and stopping at the
    first step that fails; its result is the error of that step, and nil
    exactly when none of the three steps fails. *)
Theorem WriteMessage_first_failure `{L : Lower} (wsc : WebsocketConnection L)
    (message : string) (w : World L) (tr : WebsocketTransport) :
  transports w !! transport wsc = Some tr ->
  let opened :=
    conn_NextWriter (socket wsc) websocket_TextMessage
                    (write_armed wsc tr (lower w)) in
  let writer := opened.1.1 in
  let written := writer_Write writer (bytes_of_string message) opened.2 in
  let closed := writer_Close writer written.2 in
  let opening :=
    [CallNow;
     CallSetWriteDeadline (socket wsc) (write_deadline tr (lower w));
     CallNextWriter (socket wsc) websocket_TextMessage] in
  let writing := [CallWrite writer (bytes_of_string message)] in
  let finalizing := [CallWriterClose writer] in
  WriteMessage wsc message w
    = Some (first_failure opened.1.2 written.1.2 closed.1,
            match opened.1.2, written.1.2 with
            | Some _, _ => after w opened.2 opening
            | None, Some _ => after w written.2 (opening ++ writing)
            | None, None =>
              after w closed.2 (opening ++ writing ++ finalizing)
            end)
  /\ (first_failure opened.1.2 written.1.2 closed.1 = None <->
      opened.1.2 = None /\ written.1.2 = None /\ closed.1 = None).
Proof.
  intros Htr. cbv zeta. split.
  - exact (WriteMessage_run wsc message w tr Htr).
  - unfold first_failure.
    destruct (conn_NextWriter _ _ _).1.2 as [e1|],
             (writer_Write _ _ _).1.2 as [e2|],
             (writer_Close _ _).1 as [e3|];
      intuition congruence.
Qed.

Lemma WriteMessage_first_failure_witness :
  fst <$> WriteMessage Sim.conn "ping-1"
            (Sim.world (Sim.state [] None None
                                  (Some (LowerError 5 "broken pipe")) None))
    = Some (Some (LowerError 5 "broken pipe"))
  /\
  WriteMessage Sim.conn "ping-1"
    (Sim.world (Sim.state [] None None None None))
    = Some (None,
            after (Sim.world (Sim.state [] None None None None))
              (Sim.set_writing []
                 [{| Sim.frame_type := websocket_TextMessage;
                     Sim.frame_body := list_byte_of_string "ping-1";
                     Sim.frame_fault := None |}]
                 (Sim.set_write_deadline (9 * Second)
                    (Sim.set_clock 1 (Sim.state [] None None None None))))
              [CallNow;
               CallSetWriteDeadline (socket Sim.conn) (9 * Second);
               CallNextWriter (socket Sim.conn) websocket_TextMessage;
               @CallWrite Sim.layer websocket_TextMessage
                          (list_byte_of_string "ping-1");
               @CallWriterClose Sim.layer websocket_TextMessage]).
Proof.
  split.
  - rewrite (proj1 (WriteMessage_first_failure (L:=Sim.layer) Sim.conn "ping-1"
                      (Sim.world (Sim.state [] None None
                                    (Some (LowerError 5 "broken pipe")) None))
                      Sim.config eq_refl)).
    reflexivity.
  - rewrite (proj1 (WriteMessage_first_failure (L:=Sim.layer) Sim.conn "ping-1"
                      (Sim.world (Sim.state [] None None None None))
                      Sim.config eq_refl)).
    reflexivity.
Defined.

(** C10.  [WriteMessage] does not look at its payload: for every string,
    the empty one included, when the three socket operations succeed it
    has opened a text-frame writer, written the bytes of the string and
    closed the writer, and returns nil.  A peer whose next frame is the
    text frame with these bytes reads the string back when it is not
    empty, and gets [ErrorPacketWrong] when it is. *)
Theorem WriteMessage_no_validation `{L : Lower}
    (wsc peer : WebsocketConnection L) (message : string)
    (w pw : World L) (tr ptr : WebsocketTransport)
    (reader : Reader) (s s' : LState) :
  let opened :=
    conn_NextWriter (socket wsc) websocket_TextMessage
                    (write_armed wsc tr (lower w)) in
  let writer := opened.1.1 in
  let written := writer_Write writer (bytes_of_string message) opened.2 in
  let closed := writer_Close writer written.2 in
  transports w !! transport wsc = Some tr ->
  opened.1.2 = None -> written.1.2 = None -> closed.1 = None ->
  transports pw !! transport peer = Some ptr ->
  conn_NextReader (socket peer) (read_armed peer ptr (lower pw))
    = ((websocket_TextMessage, reader, None), s) ->
  ioutil_ReadAll reader s = ((bytes_of_string message, None), s') ->
  WriteMessage wsc message w
    = Some (None,
            after w closed.2
              [CallNow;
               CallSetWriteDeadline (socket wsc) (write_deadline tr (lower w));
               CallNextWriter (socket wsc) websocket_TextMessage;
               CallWrite writer (bytes_of_string message);
               CallWriterClose writer])
  /\ (message = "" ->
      fst <$> GetMessage peer pw = Some ("", Some ErrorPacketWrong))
  /\ (message <> "" ->
      fst <$> GetMessage peer pw = Some (message, None)).
Proof.
  intros opened writer written closed Htr Hopen Hwrite Hclose Hptr Hnext Hread.
  split.
  - rewrite (WriteMessage_run wsc message w tr Htr).
    fold opened writer written closed.
    by rewrite Hopen, Hwrite, Hclose.
  - rewrite (GetMessage_text peer pw ptr reader s s' _ Hptr Hnext Hread).
    unfold string_of_bytes, bytes_of_string.
    rewrite string_of_list_byte_of_string. cbn.
    split.
    + by intros ->.
    + intros Hne. destruct message as [|c m]; [done|]. reflexivity.
Qed.

Lemma WriteMessage_no_validation_witness :
  (WriteMessage Sim.conn "" (Sim.world Sim.quiet)
     = Some (None, after (Sim.world Sim.quiet) (Sim.sent_by "")
                     [CallNow;
                      CallSetWriteDeadline (socket Sim.conn) (9 * Second);
                      CallNextWriter (socket Sim.conn) websocket_TextMessage;
                      @CallWrite Sim.layer websocket_TextMessage [];
                      @CallWriterClose Sim.layer websocket_TextMessage])
   /\ fst <$> GetMessage Sim.conn (Sim.peer_world "")
      = Some ("", Some ErrorPacketWrong))
  /\ fst <$> GetMessage Sim.conn (Sim.peer_world "ping-1")
     = Some ("ping-1", None).
Proof.
  split; [split|].
  - refine (proj1 (WriteMessage_no_validation (L:=Sim.layer)
                     Sim.conn Sim.conn "" (Sim.world Sim.quiet)
                     (Sim.peer_world "") Sim.config Sim.config
                     {| Sim.frame_type := websocket_TextMessage;
                        Sim.frame_body := [];
                        Sim.frame_fault := None |} _ _
                     eq_refl eq_refl eq_refl eq_refl eq_refl eq_refl eq_refl)).
  - refine (proj1 (proj2 (WriteMessage_no_validation (L:=Sim.layer)
                     Sim.conn Sim.conn "" (Sim.world Sim.quiet)
                     (Sim.peer_world "") Sim.config Sim.config
                     {| Sim.frame_type := websocket_TextMessage;
                        Sim.frame_body := [];
                        Sim.frame_fault := None |} _ _
                     eq_refl eq_refl eq_refl eq_refl eq_refl eq_refl eq_refl))
                  eq_refl).
  - refine (proj2 (proj2 (WriteMessage_no_validation (L:=Sim.layer)
                     Sim.conn Sim.conn "ping-1" (Sim.world Sim.quiet)
                     (Sim.peer_world "ping-1") Sim.config Sim.config
                     {| Sim.frame_type := websocket_TextMessage;
                        Sim.frame_body := list_byte_of_string "ping-1";
                        Sim.frame_fault := None |} _ _
                     eq_refl eq_refl eq_refl eq_refl eq_refl eq_refl eq_refl))
                  _).
    discriminate.
Defined.

(** ** [HandleConnection] *)

(** C6, as amended.  For a request whose method is not GET,
    [HandleConnection] makes one call on the lower layers, [http.Error]
    with the body "Upgrade failed: Method not allowed" and the status
    503 (service unavailable), and returns no connection and
    [ErrorMethodNotAllowed]; the handshake is not attempted and the
    transport is not even read. *)
Theorem HandleConnection_wrong_method `{L : Lower} (t : loc)
    (rw : ResponseWriter) (r : Request) (w : World L) :
  Method r <> http_MethodGet ->
  HandleConnection t rw r w
    = Some ((None, Some ErrorMethodNotAllowed),
            after w
              (http_Error rw "Upgrade failed: Method not allowed"
                          http_StatusServiceUnavailable (lower w)).2
              [CallHttpError rw "Upgrade failed: Method not allowed"
                             http_StatusServiceUnavailable]).
Proof.
  intros Hmethod.
  unfold HandleConnection.
  destruct (String.eqb_spec (Method r) http_MethodGet) as [Heq|_]; [done|].
  cbn [negb].
  by rewrite bind_lower_call.
Qed.

Lemma HandleConnection_wrong_method_witness :
  @HandleConnection Sim.layer nil_loc tt {| Method := "POST"; RequestURI := "/ws" |}
                   (Sim.world Sim.quiet)
  = Some ((None, Some ErrorMethodNotAllowed),
          after (Sim.world Sim.quiet)
            (Sim.add_response "Upgrade failed: Method not allowed" 503
                              Sim.quiet)
            [@CallHttpError Sim.layer tt
               "Upgrade failed: Method not allowed" 503]).
Proof.
  refine (HandleConnection_wrong_method (L:=Sim.layer) nil_loc tt
            {| Method := "POST"; RequestURI := "/ws" |}
            (Sim.world Sim.quiet) _).
  discriminate.
Defined.

(** C6, as stated, fails: for a POST request no response of the class
    405 (method not allowed) is written. *)
Lemma HandleConnection_wrong_method_not_405 :
  ~ exists (w' : World Sim.layer) (body : string),
      @HandleConnection Sim.layer 2%positive tt
                       {| Method := "POST"; RequestURI := "/ws" |}
                       (Sim.world Sim.quiet)
      = Some ((None, Some ErrorMethodNotAllowed), w')
      /\ In (@CallHttpError Sim.layer tt body http_StatusMethodNotAllowed)
            (calls w').
Proof.
  intros (w' & body & Hrun & Hin).
  vm_compute in Hrun.
  injection Hrun as <-.
  cbn in Hin. destruct Hin as [Hcall|[]].
  discriminate Hcall.
Qed.

(** The calls of the failed-upgrade path.  For a GET request whose
    handshake fails with [e], [HandleConnection] calls [Upgrade] with the
    transport's buffer size for both buffers, then [http.Error] with the
    body "Upgrade failed: " followed by the text of [e] and the status
    503, and returns no connection and [ErrorHttpUpgradeFailed], whatever
    [e] is.  This says what the code asks of net/http, not what the peer
    receives. *)
Theorem HandleConnection_upgrade_failed `{L : Lower} (t : loc)
    (rw : ResponseWriter) (r : Request) (w : World L)
    (tr : WebsocketTransport) (c : Conn) (e : error) (s : LState) :
  let upgrader := {| ReadBufferSize := BufferSize tr;
                     WriteBufferSize := BufferSize tr |} in
  Method r = http_MethodGet ->
  transports w !! t = Some tr ->
  upgrader_Upgrade upgrader rw r (lower w) = ((c, Some e), s) ->
  HandleConnection t rw r w
    = Some ((None, Some ErrorHttpUpgradeFailed),
            after w
              (http_Error rw ("Upgrade failed: " ++ error_Error e)
                          http_StatusServiceUnavailable s).2
              [CallUpgrade upgrader rw r;
               CallHttpError rw ("Upgrade failed: " ++ error_Error e)
                             http_StatusServiceUnavailable]).
Proof.
  intros upgrader Hmethod Htr Hup.
  unfold HandleConnection.
  rewrite Hmethod. cbn [String.eqb negb].
  replace (http_MethodGet =? http_MethodGet)%string with true
    by (symmetry; apply String.eqb_refl).
  cbn [negb].
  rewrite <- (after_nil w) at 1.
  go_run. fold upgrader. rewrite Hup. cbn.
  go_run. reflexivity.
Qed.

Lemma HandleConnection_upgrade_failed_witness :
  @HandleConnection Sim.layer 2%positive tt {| Method := "GET"; RequestURI := "/ws" |}
    (Sim.world (Sim.state [] None None None
                          (Some (LowerError 7 "bad handshake"))))
  = Some ((None, Some ErrorHttpUpgradeFailed),
          after (Sim.world (Sim.state [] None None None
                                      (Some (LowerError 7 "bad handshake"))))
            (Sim.add_response "Upgrade failed: bad handshake" 503
               (Sim.state [] None None None
                          (Some (LowerError 7 "bad handshake"))))
            [@CallUpgrade Sim.layer
               {| ReadBufferSize := 4096; WriteBufferSize := 4096 |} tt
               {| Method := "GET"; RequestURI := "/ws" |};
             @CallHttpError Sim.layer tt "Upgrade failed: bad handshake" 503]).
Proof.
  refine (HandleConnection_upgrade_failed (L:=Sim.layer) 2%positive tt
            {| Method := "GET"; RequestURI := "/ws" |}
            (Sim.world (Sim.state [] None None None
                                  (Some (LowerError 7 "bad handshake"))))
            Sim.config tt (LowerError 7 "bad handshake") _
            eq_refl eq_refl eq_refl).
Defined.

(** C7, on a layer where a failed [Upgrade] has replied.  The claim does
    not hold of the code: when the handshake of a GET request fails with
    [e], [HandleConnection] returns no connection and
    [ErrorHttpUpgradeFailed] and does call [http.Error] with the body
    "Upgrade failed: " followed by the text of [e] and the status 503,
    but [Upgrade] has answered first, so what the peer is sent has the
    status 400 and a body that starts with "Bad Request", not with
    "Upgrade failed: ".  On the sibling path, a request with another
    method, [http.Error] is the first write and the peer is sent the 503
    with the body "Upgrade failed: Method not allowed". *)
Theorem HandleConnection_upgrade_failed_peer (e : error) :
  let get := {| Method := "GET"; RequestURI := "/ws" |} in
  let post := {| Method := "POST"; RequestURI := "/ws" |} in
  (exists w',
     @HandleConnection Peer.layer 2%positive tt get (Peer.world (Some e))
       = Some ((None, Some ErrorHttpUpgradeFailed), w')
     /\ last (calls w')
        = Some (@CallHttpError Peer.layer tt
                  ("Upgrade failed: " ++ error_Error e)
                  http_StatusServiceUnavailable)
     /\ Peer.status (Peer.sent w') = Some Peer.http_StatusBadRequest
     /\ Peer.status (Peer.sent w') <> Some http_StatusServiceUnavailable
     /\ String.prefix "Bad Request" (Peer.body (Peer.sent w')) = true
     /\ String.prefix "Upgrade failed: " (Peer.body (Peer.sent w')) = false)
  /\
  (exists w',
     @HandleConnection Peer.layer 2%positive tt post (Peer.world (Some e))
       = Some ((None, Some ErrorMethodNotAllowed), w')
     /\ Peer.sent w'
        = {| Peer.status := Some http_StatusServiceUnavailable;
             Peer.body := "Upgrade failed: Method not allowed"
                          ++ Peer.newline |}).
Proof.
  intros get post. split.
  - eexists. split; [vm_compute; reflexivity|].
    repeat split; try (vm_compute; reflexivity). discriminate.
  - eexists. split; [vm_compute; reflexivity|]. vm_compute. reflexivity.
Qed.

(** ** [PingParams] *)

(** Reading and writing never panic on a connection whose transport is
    allocated, and leave the heap of transports as it is. *)
Lemma GetMessage_heap `{L : Lower} (wsc : WebsocketConnection L)
    (w : World L) (tr : WebsocketTransport) :
  transports w !! transport wsc = Some tr ->
  exists res w', GetMessage wsc w = Some (res, w')
                 /\ transports w' = transports w.
Proof.
  intros Htr.
  cut (exists res w', GetMessage wsc (after w (lower w) []) = Some (res, w')
                      /\ transports w' = transports w);
    [by rewrite after_nil|].
  unfold GetMessage.
  go_run.
  destruct (conn_NextReader _ _) as [[[msgType reader] [e|]] s1]; cbn.
  { by eexists _, _. }
  destruct (negb _); cbn.
  { by eexists _, _. }
  go_run.
  destruct (ioutil_ReadAll _ _) as [[data [e|]] s2]; cbn.
  { by eexists _, _. }
  destruct (_ =? _)%Z; by eexists _, _.
Qed.

Lemma WriteMessage_heap `{L : Lower} (wsc : WebsocketConnection L)
    (message : string) (w : World L) (tr : WebsocketTransport) :
  transports w !! transport wsc = Some tr ->
  exists res w', WriteMessage wsc message w = Some (res, w')
                 /\ transports w' = transports w.
Proof.
  intros Htr.
  rewrite (WriteMessage_run wsc message w tr Htr).
  eexists _, _. split; [reflexivity|].
  by repeat case_match.
Qed.

Lemma perform_all_heap `{L : Lower} (wsc : WebsocketConnection L)
    (acts : list Activity) (w : World L) (tr : WebsocketTransport) :
  transports w !! transport wsc = Some tr ->
  exists w', perform_all wsc acts w = Some (tt, w')
             /\ transports w' = transports w.
Proof.
  revert w. induction acts as [|a acts IH]; intros w Htr.
  - by exists w.
  - cbn [perform_all]. unfold bind at 1.
    assert (exists w1, perform wsc a w = Some (tt, w1)
                       /\ transports w1 = transports w) as (w1 & -> & Hw1).
    { destruct a as [|message]; cbn [perform]; unfold bind.
      - destruct (GetMessage_heap wsc w tr Htr) as (res & w1 & -> & Hw1).
        by exists w1.
      - destruct (WriteMessage_heap wsc message w tr Htr)
          as (res & w1 & -> & Hw1).
        by exists w1. }
    destruct (IH w1) as (w' & Hrun & Hw'); [by rewrite Hw1|].
    exists w'. split; [done|]. by rewrite Hw', Hw1.
Qed.

(** A connection made by [Connect] or [HandleConnection] points to the
    transport it was made from, and making it leaves the heap as it is. *)
Lemma Connect_transport `{L : Lower} (t : loc) (url : string) (w w' : World L)
    (wsc : WebsocketConnection L) (err : option error) :
  Connect t url w = Some ((Some wsc, err), w') ->
  transport wsc = t /\ transports w' = transports w.
Proof.
  unfold Connect, bind at 1, load.
  destruct (transports w !! t) as [tr|]; [|done].
  rewrite <- (after_nil w) at 1. go_run.
  destruct (dialer_Dial _ _ _ _) as [[c [e|]] s]; cbn; [done|].
  unfold ret. intros [= <- <- <-]. done.
Qed.

Lemma HandleConnection_transport `{L : Lower} (t : loc) (rw : ResponseWriter)
    (r : Request) (w w' : World L)
    (wsc : WebsocketConnection L) (err : option error) :
  HandleConnection t rw r w = Some ((Some wsc, err), w') ->
  transport wsc = t /\ transports w' = transports w.
Proof.
  unfold HandleConnection.
  destruct (negb _).
  { rewrite bind_lower_call. done. }
  unfold bind at 1, load.
  destruct (transports w !! t) as [tr|]; [|done].
  rewrite <- (after_nil w) at 1. go_run.
  destruct (upgrader_Upgrade _ _ _ _) as [[c [e|]] s]; cbn.
  { go_run. done. }
  unfold ret. intros [= <- <- <-]. done.
Qed.

(** C8.  On a connection made by [Connect] or [HandleConnection] from
    the transport at [t], after any sequence of reads and writes on the
    connection, [PingParams] returns the [PingInterval] and [PingTimeout]
    the transport had when the connection was made, and leaves the world
    as it is. *)
Theorem PingParams_unaffected `{L : Lower} (t : loc)
    (cfg : WebsocketTransport) (w0 w1 : World L)
    (wsc : WebsocketConnection L) (acts : list Activity) :
  transports w0 !! t = Some cfg ->
  (exists url, Connect t url w0 = Some ((Some wsc, None), w1))
  \/ (exists rw r, HandleConnection t rw r w0 = Some ((Some wsc, None), w1)) ->
  PingParams wsc w1 = Some ((PingInterval cfg, PingTimeout cfg), w1)
  /\ exists w2,
       perform_all wsc acts w1 = Some (tt, w2)
       /\ PingParams wsc w2 = Some ((PingInterval cfg, PingTimeout cfg), w2).
Proof.
  intros Hcfg Hmade.
  assert (transport wsc = t /\ transports w1 = transports w0) as [Ht Hw1].
  { destruct Hmade as [[url Hc]|(rw & r & Hh)].
    - by eapply Connect_transport.
    - by eapply HandleConnection_transport. }
  assert (transports w1 !! transport wsc = Some cfg) as Hcfg1
    by (by rewrite Ht, Hw1).
  split.
  - unfold PingParams. by erewrite bind_load.
  - destruct (perform_all_heap wsc acts w1 cfg Hcfg1) as (w2 & Hrun & Hw2).
    exists w2. split; [done|].
    unfold PingParams. erewrite bind_load; [done|]. by rewrite Hw2.
Qed.

Lemma PingParams_unaffected_witness :
  let s0 := Sim.state [Sim.text "pong"] None None None None in
  let w1 :=
    after (Sim.world s0) s0
      [@CallDial Sim.layer {| Dialer_TLSClientConfig := None |}
                 "ws://localhost/socket.io/" None] in
  Connect 2%positive "ws://localhost/socket.io/" (Sim.world s0)
    = Some ((Some Sim.conn, None), w1)
  /\ exists w2,
       perform_all Sim.conn [DoWrite "ping-1"; DoRead; DoRead] w1
         = Some (tt, w2)
       /\ PingParams Sim.conn w2 = Some ((25 * Second, 50 * Second), w2).
Proof.
  intros s0 w1. split; [reflexivity|].
  exact (proj2 (PingParams_unaffected (L:=Sim.layer) 2%positive Sim.config
                  (Sim.world s0) w1 Sim.conn
                  [DoWrite "ping-1"; DoRead; DoRead] eq_refl
                  (or_introl (ex_intro _ "ws://localhost/socket.io/"
                                       eq_refl)))).
Defined.

(** ** The factories *)

(** Allocation hands out a location that held nothing and is not nil. *)
Lemma new_transport_fresh `{L : Lower} (tr : WebsocketTransport)
    (w : World L) :
  exists p,
    new_transport tr w
      = Some (p, {| transports := <[p := tr]> (transports w);
                    lower := lower w;
                    calls := calls w |})
    /\ transports w !! p = None
    /\ p <> nil_loc.
Proof.
  unfold new_transport.
  set (X := {[nil_loc]} ∪ dom (transports w)).
  exists (fresh X). split; [done|].
  pose proof (is_fresh X) as Hfresh.
  split.
  - apply not_elem_of_dom. set_solver.
  - set_solver.
Qed.

(** C1.  [GeDefaultWebsocketTransport] returns a pointer to a new
    transport whose fields are: ping interval 30 s, ping timeout 60 s,
    receive timeout 60 s, send timeout 60 s (in nanoseconds), buffer size
    32768, nil headers and nil TLS configuration. *)
Theorem GeDefaultWebsocketTransport_fields `{L : Lower} (w : World L) :
  exists p w',
    GeDefaultWebsocketTransport w = Some (p, w')
    /\ transports w' !! p
       = Some {| PingInterval := 30000000000;
                 PingTimeout := 60000000000;
                 ReceiveTimeout := 60000000000;
                 SendTimeout := 60000000000;
                 BufferSize := 32768;
                 Headers := None;
                 TLSClientConfig := None |}
    /\ Second = 1000000000.
Proof.
  unfold GeDefaultWebsocketTransport.
  destruct (new_transport_fresh
              {| PingInterval := WsDefaultPingInterval;
                 PingTimeout := WsDefaultPingTimeout;
                 ReceiveTimeout := WsDefaultReceiveTimeout;
                 SendTimeout := WsDefaultSendTimeout;
                 BufferSize := WsDefaultBufferSize;
                 Headers := None;
                 TLSClientConfig := None |} w) as (p & -> & _ & _).
  eexists _, _. split; [reflexivity|]. split; [|reflexivity].
  cbn [transports]. by rewrite lookup_insert_eq.
Qed.

(** C9.  [TlsWebsocketTransport] returns a pointer to a new transport
    that has the given headers and TLS configuration and, in the other
    five fields, the values of the transport the default factory makes;
    the heap gains this one object, and nothing else changes: the lower
    layers are not called and are left as they were. *)
Theorem TlsWebsocketTransport_fields `{L : Lower} (headers : http_Header)
    (tlsConfig : tls_Config) (w : World L) :
  exists p tr dflt w0,
    TlsWebsocketTransport headers tlsConfig w
      = Some (p, {| transports := <[p := tr]> (transports w);
                    lower := lower w;
                    calls := calls w |})
    /\ transports w !! p = None
    /\ GeDefaultWebsocketTransport w = Some (p, w0)
    /\ transports w0 !! p = Some dflt
    /\ PingInterval tr = PingInterval dflt
    /\ PingTimeout tr = PingTimeout dflt
    /\ ReceiveTimeout tr = ReceiveTimeout dflt
    /\ SendTimeout tr = SendTimeout dflt
    /\ BufferSize tr = BufferSize dflt
    /\ Headers tr = headers
    /\ TLSClientConfig tr = tlsConfig.
Proof.
  unfold TlsWebsocketTransport, GetDefaultWebsocketTransport,
    GeDefaultWebsocketTransport.
  set (dflt := {| PingInterval := WsDefaultPingInterval;
                  PingTimeout := WsDefaultPingTimeout;
                  ReceiveTimeout := WsDefaultReceiveTimeout;
                  SendTimeout := WsDefaultSendTimeout;
                  BufferSize := WsDefaultBufferSize;
                  Headers := None;
                  TLSClientConfig := None |}).
  destruct (new_transport_fresh dflt w) as (p & Hnew & Hfresh & _).
  exists p, (set_TLSClientConfig tlsConfig (set_Headers headers dflt)), dflt.
  eexists.
  unfold bind. rewrite Hnew.
  unfold update. cbn [transports lower calls].
  rewrite lookup_insert_eq. cbn [transports lower calls].
  rewrite lookup_insert_eq.
  rewrite !insert_insert_eq.
  split; [reflexivity|]. split; [done|]. split; [reflexivity|].
  cbn [transports]. rewrite lookup_insert_eq. done.
Qed.

(** * Further properties of the code *)

Lemma new_calls_after `{L : Lower} (w : World L) s cs :
  new_calls w (after w s cs) = cs.
Proof. unfold new_calls, after; cbn. by rewrite drop_app_length. Qed.

(** ** [Connect] *)

(** The run of [Connect] on an allocated transport: one [Dial], with the
    transport's TLS configuration and headers. *)
Lemma Connect_run `{L : Lower} (t : loc) (url : string) (w : World L)
    (tr : WebsocketTransport) :
  transports w !! t = Some tr ->
  let dialer := {| Dialer_TLSClientConfig := TLSClientConfig tr |} in
  let dialed := dialer_Dial dialer url (Headers tr) (lower w) in
  Connect t url w
    = Some (match dialed.1.2 with
            | Some e => (None, Some e)
            | None => (Some {| socket := dialed.1.1; transport := t |}, None)
            end,
            after w dialed.2 [CallDial dialer url (Headers tr)]).
Proof.
  intros Htr. cbv zeta.
  unfold Connect.
  rewrite <- (after_nil w) at 1.
  go_run.
  by destruct (dialer_Dial _ _ _ _) as [[c [e|]] s].
Qed.

Lemma Connect_allocated `{L : Lower} (t : loc) (url : string) (w : World L)
    res :
  Connect t url w = Some res -> exists tr, transports w !! t = Some tr.
Proof.
  unfold Connect. destruct (transports w !! t) as [tr|] eqn:Htr; [by eauto|].
  by rewrite bind_load_None.
Qed.

(** X1.  When dialing fails, [Connect] returns no connection and the
    error of [Dial] itself, whatever it is; it has made the one call
    [Dial], with the transport's TLS configuration, the URL and the
    transport's headers. *)
Theorem Connect_dial_failed `{L : Lower} (t : loc) (url : string)
    (w : World L) (tr : WebsocketTransport) (c : Conn) (e : error)
    (s : LState) :
  let dialer := {| Dialer_TLSClientConfig := TLSClientConfig tr |} in
  transports w !! t = Some tr ->
  dialer_Dial dialer url (Headers tr) (lower w) = ((c, Some e), s) ->
  Connect t url w
    = Some ((None, Some e), after w s [CallDial dialer url (Headers tr)]).
Proof.
  intros dialer Htr Hdial.
  rewrite (Connect_run t url w tr Htr). fold dialer. by rewrite Hdial.
Qed.

Lemma Connect_dial_failed_witness :
  let s0 := Sim.state [] None None None
                      (Some (LowerError 11 "connection refused")) in
  Connect 2%positive "ws://localhost/socket.io/" (Sim.world s0)
  = Some ((None, Some (LowerError 11 "connection refused")),
          after (Sim.world s0) s0
            [@CallDial Sim.layer {| Dialer_TLSClientConfig := None |}
                       "ws://localhost/socket.io/" None]).
Proof.
  intros s0.
  exact (Connect_dial_failed (L:=Sim.layer) 2%positive
           "ws://localhost/socket.io/" (Sim.world s0) Sim.config tt
           (LowerError 11 "connection refused") s0 eq_refl eq_refl).
Defined.

(** X2.  When dialing succeeds, [Connect] returns, with a nil error, the
    connection made of the dialed socket and of the very pointer [t] it
    was called on. *)
Theorem Connect_ok `{L : Lower} (t : loc) (url : string)
    (w : World L) (tr : WebsocketTransport) (c : Conn) (s : LState) :
  let dialer := {| Dialer_TLSClientConfig := TLSClientConfig tr |} in
  transports w !! t = Some tr ->
  dialer_Dial dialer url (Headers tr) (lower w) = ((c, None), s) ->
  Connect t url w
    = Some ((Some {| socket := c; transport := t |}, None),
            after w s [CallDial dialer url (Headers tr)]).
Proof.
  intros dialer Htr Hdial.
  rewrite (Connect_run t url w tr Htr). fold dialer. by rewrite Hdial.
Qed.

Lemma Connect_ok_witness :
  Connect 2%positive "ws://localhost/socket.io/" (Sim.world Sim.quiet)
  = Some ((Some Sim.conn, None),
          after (Sim.world Sim.quiet) Sim.quiet
            [@CallDial Sim.layer {| Dialer_TLSClientConfig := None |}
                       "ws://localhost/socket.io/" None]).
Proof.
  exact (Connect_ok (L:=Sim.layer) 2%positive "ws://localhost/socket.io/"
           (Sim.world Sim.quiet) Sim.config tt Sim.quiet eq_refl eq_refl).
Defined.

(** X3.  Whenever [Connect] returns, exactly one of the connection and
    the error is nil, the heap of transports is as before, and the
    lower layers were called once, by [Dial] with the given URL. *)
Theorem Connect_one_of `{L : Lower} (t : loc) (url : string)
    (w w' : World L) (conn : option (WebsocketConnection L))
    (err : option error) :
  Connect t url w = Some ((conn, err), w') ->
  (conn = None <-> err <> None)
  /\ transports w' = transports w
  /\ exists dialer headers, new_calls w w' = [CallDial dialer url headers].
Proof.
  intros Hrun.
  destruct (Connect_allocated _ _ _ _ Hrun) as [tr Htr].
  rewrite (Connect_run t url w tr Htr) in Hrun.
  injection Hrun as Hres <-.
  rewrite new_calls_after. split; [|by eauto].
  destruct (dialer_Dial _ _ _ _).1.2; injection Hres as <- <-; naive_solver.
Qed.

Lemma Connect_one_of_witness :
  ((Some Sim.conn = None <-> (None : option error) <> None)
   /\ transports (after (Sim.world Sim.quiet) Sim.quiet
                    [@CallDial Sim.layer {| Dialer_TLSClientConfig := None |}
                               "ws://localhost/socket.io/" None])
      = transports (Sim.world Sim.quiet)
   /\ exists dialer headers,
        new_calls (Sim.world Sim.quiet)
          (after (Sim.world Sim.quiet) Sim.quiet
             [@CallDial Sim.layer {| Dialer_TLSClientConfig := None |}
                        "ws://localhost/socket.io/" None])
        = [@CallDial Sim.layer dialer "ws://localhost/socket.io/" headers]).
Proof.
  exact (Connect_one_of (L:=Sim.layer) 2%positive "ws://localhost/socket.io/"
           (Sim.world Sim.quiet) _ (Some Sim.conn) None eq_refl).
Defined.

(** ** [HandleConnection], continued *)

(** The run of [HandleConnection] on a GET request and an allocated
    transport. *)
Lemma HandleConnection_run_get `{L : Lower} (t : loc) (rw : ResponseWriter)
    (r : Request) (w : World L) (tr : WebsocketTransport) :
  Method r = http_MethodGet ->
  transports w !! t = Some tr ->
  let upgrader := {| ReadBufferSize := BufferSize tr;
                     WriteBufferSize := BufferSize tr |} in
  let upgraded := upgrader_Upgrade upgrader rw r (lower w) in
  HandleConnection t rw r w
    = Some (match upgraded.1.2 with
            | Some e =>
              ((None, Some ErrorHttpUpgradeFailed),
               after w
                 (http_Error rw ("Upgrade failed: " ++ error_Error e)
                             http_StatusServiceUnavailable upgraded.2).2
                 [CallUpgrade upgrader rw r;
                  CallHttpError rw ("Upgrade failed: " ++ error_Error e)
                                http_StatusServiceUnavailable])
            | None =>
              ((Some {| socket := upgraded.1.1; transport := t |}, None),
               after w upgraded.2 [CallUpgrade upgrader rw r])
            end).
Proof.
  intros Hmethod Htr. cbv zeta.
  unfold HandleConnection.
  rewrite Hmethod.
  replace (http_MethodGet =? http_MethodGet)%string with true
    by (symmetry; apply String.eqb_refl).
  cbn [negb].
  rewrite <- (after_nil w) at 1.
  go_run.
  destruct (upgrader_Upgrade _ _ _ _) as [[c [e|]] s]; cbn; [|done].
  go_run. reflexivity.
Qed.

(** The run on any other request. *)
Lemma HandleConnection_run_other `{L : Lower} (t : loc) (rw : ResponseWriter)
    (r : Request) (w : World L) :
  Method r <> http_MethodGet ->
  HandleConnection t rw r w
    = Some ((None, Some ErrorMethodNotAllowed),
            after w
              (http_Error rw "Upgrade failed: Method not allowed"
                          http_StatusServiceUnavailable (lower w)).2
              [CallHttpError rw "Upgrade failed: Method not allowed"
                             http_StatusServiceUnavailable]).
Proof.
  intros Hmethod.
  unfold HandleConnection.
  destruct (String.eqb_spec (Method r) http_MethodGet) as [Heq|_]; [done|].
  cbn [negb].
  by rewrite bind_lower_call.
Qed.

Lemma HandleConnection_allocated `{L : Lower} (t : loc) (rw : ResponseWriter)
    (r : Request) (w : World L) res :
  Method r = http_MethodGet ->
  HandleConnection t rw r w = Some res ->
  exists tr, transports w !! t = Some tr.
Proof.
  intros Hmethod. unfold HandleConnection. rewrite Hmethod.
  replace (http_MethodGet =? http_MethodGet)%string with true
    by (symmetry; apply String.eqb_refl).
  cbn [negb].
  destruct (transports w !! t) as [tr|] eqn:Htr; [by eauto|].
  by rewrite bind_load_None.
Qed.

(** X4.  For a GET request whose handshake succeeds, [HandleConnection]
    returns, with a nil error, the connection made of the upgraded socket
    and of the pointer [t]; its one call on the lower layers is [Upgrade]
    with the transport's buffer size for reading and for writing, and no
    response is written with [http.Error]. *)
Theorem HandleConnection_ok `{L : Lower} (t : loc) (rw : ResponseWriter)
    (r : Request) (w : World L) (tr : WebsocketTransport) (c : Conn)
    (s : LState) :
  let upgrader := {| ReadBufferSize := BufferSize tr;
                     WriteBufferSize := BufferSize tr |} in
  Method r = http_MethodGet ->
  transports w !! t = Some tr ->
  upgrader_Upgrade upgrader rw r (lower w) = ((c, None), s) ->
  HandleConnection t rw r w
    = Some ((Some {| socket := c; transport := t |}, None),
            after w s [CallUpgrade upgrader rw r]).
Proof.
  intros upgrader Hmethod Htr Hup.
  rewrite (HandleConnection_run_get t rw r w tr Hmethod Htr).
  fold upgrader. by rewrite Hup.
Qed.

Lemma HandleConnection_ok_witness :
  @HandleConnection Sim.layer 2%positive tt
                    {| Method := "GET"; RequestURI := "/ws" |}
                    (Sim.world Sim.quiet)
  = Some ((Some Sim.conn, None),
          after (Sim.world Sim.quiet) Sim.quiet
            [@CallUpgrade Sim.layer
               {| ReadBufferSize := 4096; WriteBufferSize := 4096 |} tt
               {| Method := "GET"; RequestURI := "/ws" |}]).
Proof.
  exact (HandleConnection_ok (L:=Sim.layer) 2%positive tt
           {| Method := "GET"; RequestURI := "/ws" |}
           (Sim.world Sim.quiet) Sim.config tt Sim.quiet
           eq_refl eq_refl eq_refl).
Defined.

(** X5.  Whenever [HandleConnection] returns: exactly one of the
    connection and the error is nil; the error is nil,
    [ErrorMethodNotAllowed] or [ErrorHttpUpgradeFailed]; on success none
    of its calls is [http.Error]; on failure its last call is
    [http.Error] on the given response writer with the status 503 and a
    body that starts with "Upgrade failed: ".  The heap of transports is
    as before. *)
Theorem HandleConnection_responds_iff_fails `{L : Lower} (t : loc)
    (rw : ResponseWriter) (r : Request) (w w' : World L)
    (conn : option (WebsocketConnection L)) (err : option error) :
  HandleConnection t rw r w = Some ((conn, err), w') ->
  (conn = None <-> err <> None)
  /\ (err = None \/ err = Some ErrorMethodNotAllowed
      \/ err = Some ErrorHttpUpgradeFailed)
  /\ (err = None ->
      forall c, In c (new_calls w w') -> is_response c = false)
  /\ (err <> None ->
      exists detail,
        last (new_calls w w')
        = Some (CallHttpError rw ("Upgrade failed: " ++ detail)
                              http_StatusServiceUnavailable))
  /\ transports w' = transports w.
Proof.
  intros Hrun.
  destruct (String.eqb_spec (Method r) http_MethodGet) as [Hget|Hother].
  - destruct (HandleConnection_allocated _ _ _ _ _ Hget Hrun) as [tr Htr].
    rewrite (HandleConnection_run_get t rw r w tr Hget Htr) in Hrun.
    destruct (upgrader_Upgrade _ _ _ _).1.2 as [e|];
      injection Hrun as <- <- <-; rewrite new_calls_after.
    + repeat split; try done; try (intuition congruence);
        intros _; by exists (error_Error e).
    + repeat split; try done; try (intuition congruence);
        intros _ c [<-|[]]; done.
  - rewrite (HandleConnection_run_other t rw r w Hother) in Hrun.
    injection Hrun as <- <- <-. rewrite new_calls_after.
    repeat split; try done; try (intuition congruence);
      intros _; by exists "Method not allowed".
Qed.

Lemma HandleConnection_responds_iff_fails_witness :
  let r := {| Method := "DELETE"; RequestURI := "/ws" |} in
  let w' := after (Sim.world Sim.quiet)
              (Sim.add_response "Upgrade failed: Method not allowed" 503
                                Sim.quiet)
              [@CallHttpError Sim.layer tt
                 "Upgrade failed: Method not allowed" 503] in
  @HandleConnection Sim.layer nil_loc tt r (Sim.world Sim.quiet)
    = Some ((None, Some ErrorMethodNotAllowed), w')
  /\ exists detail,
       last (new_calls (Sim.world Sim.quiet) w')
       = Some (@CallHttpError Sim.layer tt ("Upgrade failed: " ++ detail)
                              http_StatusServiceUnavailable).
Proof.
  intros r w'. split; [reflexivity|].
  refine (proj1 (proj2 (proj2 (proj2
            (HandleConnection_responds_iff_fails (L:=Sim.layer) nil_loc tt r
               (Sim.world Sim.quiet) w' None (Some ErrorMethodNotAllowed)
               eq_refl)))) _).
  discriminate.
Defined.

(** ** [GetMessage], continued *)

(** A string is empty when it has no bytes. *)
Lemma string_of_bytes_nil (data : list byte) :
  string_of_list_byte data = "" -> data = [].
Proof.
  intros Hs.
  rewrite <- (list_byte_of_string_of_list_byte data). by rewrite Hs.
Qed.

Lemma length_zero_empty (text : string) :
  (Z.of_nat (String.length text) =? 0)%Z = true <-> text = "".
Proof.
  destruct text as [|c text]; cbn [String.length].
  - done.
  - split; [|done]. intros H%Z.eqb_eq. lia.
Qed.

(** The run of [GetMessage] on a connection whose transport is
    allocated. *)
Lemma GetMessage_run `{L : Lower} (wsc : WebsocketConnection L)
    (w : World L) (tr : WebsocketTransport) :
  transports w !! transport wsc = Some tr ->
  let next := conn_NextReader (socket wsc) (read_armed wsc tr (lower w)) in
  let reader := next.1.1.2 in
  let read := ioutil_ReadAll reader next.2 in
  let text := string_of_bytes read.1.1 in
  let asking :=
    [CallNow;
     CallSetReadDeadline (socket wsc) (read_deadline tr (lower w));
     CallNextReader (socket wsc)] in
  GetMessage wsc w
    = Some (match next.1.2 with
            | Some e => (("", Some e), after w next.2 asking)
            | None =>
              if negb (next.1.1.1 =? websocket_TextMessage)%Z then
                (("", Some ErrorBinaryMessage), after w next.2 asking)
              else
                (match read.1.2 with
                 | Some _ => ("", Some ErrorBadBuffer)
                 | None =>
                   if (Z.of_nat (String.length text) =? 0)%Z
                   then ("", Some ErrorPacketWrong)
                   else (text, None)
                 end,
                 after w read.2 (asking ++ [CallReadAll reader]))
            end).
Proof.
  intros Htr. cbv zeta.
  unfold GetMessage.
  rewrite <- (after_nil w) at 1.
  go_run.
  fold (read_deadline tr (lower w)). fold (read_armed wsc tr (lower w)).
  destruct (conn_NextReader _ _) as [[[msgType reader] [e|]] s1]; cbn;
    [done|].
  destruct (negb _); cbn; [done|].
  go_run.
  destruct (ioutil_ReadAll _ _) as [[data [e|]] s2]; cbn; [done|].
  by destruct (_ =? _)%Z.
Qed.

Lemma GetMessage_allocated `{L : Lower} (wsc : WebsocketConnection L)
    (w : World L) res :
  GetMessage wsc w = Some res ->
  exists tr, transports w !! transport wsc = Some tr.
Proof.
  unfold GetMessage. rewrite bind_lower_call.
  destruct (transports w !! transport wsc) as [tr|] eqn:Htr; [by eauto|].
  by rewrite bind_load_None.
Qed.

(** X6.  A text frame whose body is read in full and is not empty is
    returned as it is: the string [GetMessage] returns, with a nil error,
    has exactly the bytes of the body, whatever they are. *)
Theorem GetMessage_nonempty_text `{L : Lower} (wsc : WebsocketConnection L)
    (w : World L) (tr : WebsocketTransport)
    (reader : Reader) (s s' : LState) (data : list byte) :
  transports w !! transport wsc = Some tr ->
  conn_NextReader (socket wsc) (read_armed wsc tr (lower w))
    = ((websocket_TextMessage, reader, None), s) ->
  ioutil_ReadAll reader s = ((data, None), s') ->
  data <> [] ->
  exists text,
    GetMessage wsc w
      = Some ((text, None),
              after w s' [CallNow;
                          CallSetReadDeadline (socket wsc)
                                              (read_deadline tr (lower w));
                          CallNextReader (socket wsc);
                          CallReadAll reader])
    /\ bytes_of_string text = data.
Proof.
  intros Htr Hnext Hread Hdata.
  exists (string_of_bytes data).
  rewrite (GetMessage_run wsc w tr Htr), Hnext. cbn. rewrite Hread. cbn.
  split; [|apply list_byte_of_string_of_list_byte].
  destruct (_ =? _)%Z eqn:Hlen; [|done].
  apply length_zero_empty, string_of_bytes_nil in Hlen. done.
Qed.

Lemma GetMessage_nonempty_text_witness :
  let s0 := Sim.state [inr {| Sim.frame_type := websocket_TextMessage;
                              Sim.frame_body := [x00; xff];
                              Sim.frame_fault := None |}]
                      None None None None in
  exists text,
    fst <$> GetMessage Sim.conn (Sim.world s0) = Some (text, None)
    /\ list_byte_of_string text = [x00; xff].
Proof.
  intros s0.
  destruct (GetMessage_nonempty_text (L:=Sim.layer) Sim.conn (Sim.world s0)
              Sim.config
              {| Sim.frame_type := websocket_TextMessage;
                 Sim.frame_body := [x00; xff];
                 Sim.frame_fault := None |} _ _ [x00; xff]
              eq_refl eq_refl eq_refl ltac:(discriminate))
    as (text & Hrun & Hbytes).
  exists text. split; [|exact Hbytes].
  rewrite Hrun. reflexivity.
Defined.

(** X7.  Whenever [GetMessage] returns, its error is nil exactly when
    its string is not empty: a failed read returns the empty string, and
    a successful read never does. *)
Theorem GetMessage_error_iff_empty `{L : Lower} (wsc : WebsocketConnection L)
    (w w' : World L) (message : string) (err : option error) :
  GetMessage wsc w = Some ((message, err), w') ->
  (err = None <-> message <> "").
Proof.
  intros Hrun.
  destruct (GetMessage_allocated _ _ _ Hrun) as [tr Htr].
  rewrite (GetMessage_run wsc w tr Htr) in Hrun.
  destruct (conn_NextReader _ _).1.2 as [e|].
  { injection Hrun as <- <- <-. split; done. }
  destruct (negb _).
  { injection Hrun as <- <- <-. split; done. }
  destruct (ioutil_ReadAll _ _).1.2 as [e|].
  { injection Hrun as <- <- <-. split; done. }
  destruct (_ =? _)%Z eqn:Hlen.
  { injection Hrun as <- <- <-. split; done. }
  injection Hrun as <- <- <-. split; [|done].
  intros _ Hempty. apply length_zero_empty in Hempty. congruence.
Qed.

Lemma GetMessage_error_iff_empty_witness :
  (Some ErrorBinaryMessage = None <-> "" <> "")
  /\ ((None : option error) = None <-> "pong" <> "").
Proof.
  split.
  - exact (GetMessage_error_iff_empty (L:=Sim.layer) Sim.conn
             (Sim.world (Sim.state [Sim.binary [x01]] None None None None))
             _ "" (Some ErrorBinaryMessage) eq_refl).
  - exact (GetMessage_error_iff_empty (L:=Sim.layer) Sim.conn
             (Sim.world (Sim.state [Sim.text "pong"] None None None None))
             _ "pong" None eq_refl).
Defined.

(** X8.  Whenever [GetMessage] returns, it has read the clock, set the
    read deadline of its socket to that time plus the transport's
    [ReceiveTimeout], and asked for one frame, in this order; after that
    it has at most read the body of that frame, and done nothing else on
    the lower layers: it never writes nor closes. *)
Theorem GetMessage_calls `{L : Lower} (wsc : WebsocketConnection L)
    (w w' : World L) (res : string * option error) :
  GetMessage wsc w = Some (res, w') ->
  exists tr,
    transports w !! transport wsc = Some tr
    /\ let asking :=
         [CallNow;
          CallSetReadDeadline (socket wsc)
            (Time_Add (time_Now (lower w)).1 (ReceiveTimeout tr));
          CallNextReader (socket wsc)] in
       new_calls w w' = asking
       \/ exists reader,
            new_calls w w' = (asking ++ [CallReadAll reader])%list.
Proof.
  intros Hrun.
  destruct (GetMessage_allocated _ _ _ Hrun) as [tr Htr].
  exists tr. split; [done|]. cbv zeta.
  rewrite (GetMessage_run wsc w tr Htr) in Hrun.
  fold (read_deadline tr (lower w)).
  destruct (conn_NextReader _ _).1.2 as [e|].
  { injection Hrun as <- <-. rewrite new_calls_after. by left. }
  destruct (negb _).
  { injection Hrun as <- <-. rewrite new_calls_after. by left. }
  injection Hrun as <- <-. rewrite new_calls_after. right. by eexists.
Qed.

Lemma GetMessage_calls_witness :
  let w := Sim.world (Sim.state [Sim.text "pong"] None None None None) in
  let w' :=
    after w
      (Sim.set_read_deadline (7 * Second)
         (Sim.set_clock 1 (Sim.state [] None None None None)))
      [CallNow; CallSetReadDeadline (socket Sim.conn) (7 * Second);
       CallNextReader (socket Sim.conn);
       @CallReadAll Sim.layer
         {| Sim.frame_type := websocket_TextMessage;
            Sim.frame_body := list_byte_of_string "pong";
            Sim.frame_fault := None |}] in
  exists tr,
    transports w !! transport Sim.conn = Some tr
    /\ (new_calls w w'
        = [CallNow;
           CallSetReadDeadline (socket Sim.conn)
             (Time_Add (time_Now (lower w)).1 (ReceiveTimeout tr));
           CallNextReader (socket Sim.conn)]
        \/ exists reader,
             new_calls w w'
             = [CallNow;
                CallSetReadDeadline (socket Sim.conn)
                  (Time_Add (time_Now (lower w)).1 (ReceiveTimeout tr));
                CallNextReader (socket Sim.conn);
                CallReadAll reader]).
Proof.
  intros w w'.
  exact (GetMessage_calls (L:=Sim.layer) Sim.conn w w' ("pong", None)
           eq_refl).
Defined.

(** ** The heap of transports under the operations *)

Lemma WriteMessage_allocated `{L : Lower} (wsc : WebsocketConnection L)
    (message : string) (w : World L) res :
  WriteMessage wsc message w = Some res ->
  exists tr, transports w !! transport wsc = Some tr.
Proof.
  unfold WriteMessage. rewrite bind_lower_call.
  destruct (transports w !! transport wsc) as [tr|] eqn:Htr; [by eauto|].
  by rewrite bind_load_None.
Qed.

Lemma run_operation_heap `{L : Lower} (op : Operation) (w w' : World L) :
  run_operation op w = Some (tt, w') -> transports w' = transports w.
Proof.
  destruct op as [wsc|wsc message|wsc|wsc|t url|t rw r|t rw r];
    cbn [run_operation].
  - unfold bind at 1.
    destruct (GetMessage wsc w) as [[res w1]|] eqn:Hrun; [|done].
    intros [= <-].
    destruct (GetMessage_allocated _ _ _ Hrun) as [tr Htr].
    destruct (GetMessage_heap wsc w tr Htr) as (res' & w1' & Hrun' & Hheap).
    congruence.
  - unfold bind at 1.
    destruct (WriteMessage wsc message w) as [[res w1]|] eqn:Hrun; [|done].
    intros [= <-].
    destruct (WriteMessage_allocated _ _ _ _ Hrun) as [tr Htr].
    destruct (WriteMessage_heap wsc message w tr Htr)
      as (res' & w1' & Hrun' & Hheap).
    congruence.
  - unfold Close. rewrite bind_lower_call. by intros [= <-].
  - unfold PingParams, bind, load, ret.
    destruct (transports w !! transport wsc); [|done]. by intros [= <-].
  - unfold bind at 1.
    destruct (Connect t url w) as [[[conn err] w1]|] eqn:Hrun; [|done].
    intros [= <-].
    destruct (Connect_allocated _ _ _ _ Hrun) as [tr Htr].
    rewrite (Connect_run t url w tr Htr) in Hrun. by injection Hrun as _ <-.
  - unfold bind at 1.
    destruct (HandleConnection t rw r w) as [[[conn err] w1]|] eqn:Hrun;
      [|done].
    intros [= <-].
    destruct (String.eqb_spec (Method r) http_MethodGet) as [Hget|Hother].
    + destruct (HandleConnection_allocated _ _ _ _ _ Hget Hrun) as [tr Htr].
      rewrite (HandleConnection_run_get t rw r w tr Hget Htr) in Hrun.
      by destruct (upgrader_Upgrade _ _ _ _).1.2; injection Hrun as _ _ <-.
    + rewrite (HandleConnection_run_other t rw r w Hother) in Hrun.
      by injection Hrun as _ _ <-.
  - by intros [= <-].
Qed.

(** X9.  No sequence of calls of [GetMessage], [WriteMessage], [Close],
    [PingParams], [Connect], [HandleConnection] and [Serve], on whatever
    connections and transports and whatever the lower layers do, changes
    a transport: when the sequence returns, the heap of transports is
    what it was. *)
Theorem operations_keep_transports `{L : Lower} (ops : list Operation)
    (w w' : World L) :
  run_operations ops w = Some (tt, w') -> transports w' = transports w.
Proof.
  revert w. induction ops as [|op ops IH]; intros w; cbn [run_operations].
  - by intros [= <-].
  - unfold bind at 1.
    destruct (run_operation op w) as [[[] w1]|] eqn:Hop; [|done].
    intros Hrest. rewrite (IH w1 Hrest).
    by apply (run_operation_heap op).
Qed.

Lemma operations_keep_transports_witness :
  let w := Sim.world (Sim.state [Sim.text "pong"; Sim.binary [x01]]
                                None None None None) in
  exists w',
    run_operations
      [OpConnect 2%positive "ws://localhost/socket.io/";
       OpWriteMessage Sim.conn "ping";
       OpGetMessage Sim.conn;
       OpGetMessage Sim.conn;
       OpPingParams Sim.conn;
       @OpHandleConnection Sim.layer 2%positive tt
          {| Method := "POST"; RequestURI := "/ws" |};
       @OpServe Sim.layer 2%positive tt
          {| Method := "GET"; RequestURI := "/ws" |};
       OpClose Sim.conn] w = Some (tt, w')
    /\ transports w' = transports w.
Proof.
  intros w. eexists. split.
  - vm_compute. reflexivity.
  - refine (operations_keep_transports (L:=Sim.layer)
              [OpConnect 2%positive "ws://localhost/socket.io/";
               OpWriteMessage Sim.conn "ping";
               OpGetMessage Sim.conn;
               OpGetMessage Sim.conn;
               OpPingParams Sim.conn;
               @OpHandleConnection Sim.layer 2%positive tt
                  {| Method := "POST"; RequestURI := "/ws" |};
               @OpServe Sim.layer 2%positive tt
                  {| Method := "GET"; RequestURI := "/ws" |};
               OpClose Sim.conn] w _ _).
    vm_compute. reflexivity.
Defined.

(** ** The factories, continued *)

Lemma TlsWebsocketTransport_run `{L : Lower} (headers : http_Header)
    (tlsConfig : tls_Config) (w : World L) :
  exists p,
    TlsWebsocketTransport headers tlsConfig w
      = Some (p, {| transports :=
                      <[p := tls_transport headers tlsConfig]> (transports w);
                    lower := lower w;
                    calls := calls w |})
    /\ transports w !! p = None
    /\ p <> nil_loc.
Proof.
  unfold TlsWebsocketTransport, GetDefaultWebsocketTransport,
    GeDefaultWebsocketTransport.
  destruct (new_transport_fresh (tls_transport None None) w)
    as (p & Hnew & Hfresh & Hnil).
  exists p. split; [|done].
  unfold bind. unfold tls_transport in Hnew. rewrite Hnew.
  unfold update. cbn [transports lower calls].
  rewrite lookup_insert_eq. cbn [transports lower calls].
  rewrite lookup_insert_eq.
  by rewrite !insert_insert_eq.
Qed.

(** X10.  Each call of a factory returns a pointer of its own: the
    pointer [TlsWebsocketTransport] returns differs from the one an
    earlier [GeDefaultWebsocketTransport] returned and from every
    pointer in use, neither is nil, and setting the headers and the TLS
    configuration changes neither the earlier default transport nor any
    other transport. *)
Theorem factories_fresh `{L : Lower} (headers : http_Header)
    (tlsConfig : tls_Config) (w : World L) :
  exists p q w1 w2,
    GeDefaultWebsocketTransport w = Some (p, w1)
    /\ TlsWebsocketTransport headers tlsConfig w1 = Some (q, w2)
    /\ p <> q /\ p <> nil_loc /\ q <> nil_loc
    /\ transports w2 !! p = Some (tls_transport None None)
    /\ transports w2 !! q = Some (tls_transport headers tlsConfig)
    /\ forall l tr,
         transports w !! l = Some tr ->
         l <> p /\ l <> q /\ transports w2 !! l = Some tr.
Proof.
  unfold GeDefaultWebsocketTransport.
  destruct (new_transport_fresh (tls_transport None None) w)
    as (p & Hnew & Hp & Hpnil).
  set (w1 := {| transports := <[p := tls_transport None None]> (transports w);
                lower := lower w; calls := calls w |}) in *.
  destruct (TlsWebsocketTransport_run headers tlsConfig w1)
    as (q & Htls & Hq & Hqnil).
  assert (p <> q) as Hpq.
  { intros <-. cbn in Hq. by rewrite lookup_insert_eq in Hq. }
  eexists p, q, w1, _. split; [exact Hnew|]. split; [exact Htls|].
  subst w1. cbn [transports] in *.
  repeat split; try done.
  - rewrite lookup_insert_ne by done. by rewrite lookup_insert_eq.
  - by rewrite lookup_insert_eq.
  - intros ->. congruence.
  - intros ->. cbn in Hq.
    rewrite lookup_insert_ne in Hq by done. congruence.
  - assert (l <> p) by (intros ->; congruence).
    assert (l <> q).
    { intros ->. cbn in Hq. rewrite lookup_insert_ne in Hq by done.
      congruence. }
    by rewrite !lookup_insert_ne.
Qed.

(** X11.  The headers and the TLS configuration given to
    [TlsWebsocketTransport] are the ones [Connect] dials with: on the
    transport the factory returns, [Connect] makes the one call [Dial]
    with a dialer of that TLS configuration, the URL and those headers,
    and returns what [Dial] gives. *)
Theorem TlsWebsocketTransport_then_Connect `{L : Lower}
    (headers : http_Header) (tlsConfig : tls_Config) (url : string)
    (w : World L) :
  exists p w1,
    TlsWebsocketTransport headers tlsConfig w = Some (p, w1)
    /\ let dialer := {| Dialer_TLSClientConfig := tlsConfig |} in
       let dialed := dialer_Dial dialer url headers (lower w) in
       Connect p url w1
       = Some (match dialed.1.2 with
               | Some e => (None, Some e)
               | None =>
                 (Some {| socket := dialed.1.1; transport := p |}, None)
               end,
               after w1 dialed.2 [CallDial dialer url headers]).
Proof.
  destruct (TlsWebsocketTransport_run headers tlsConfig w)
    as (p & Htls & _ & _).
  set (w1 := {| transports :=
                  <[p := tls_transport headers tlsConfig]> (transports w);
                lower := lower w; calls := calls w |}) in *.
  assert (transports w1 !! p = Some (tls_transport headers tlsConfig)) as Hp
    by (cbn [transports w1]; by rewrite lookup_insert_eq).
  exists p, w1. split; [exact Htls|].
  exact (Connect_run p url w1 _ Hp).
Qed.

(** X12.  On a transport made by [GeDefaultWebsocketTransport], a GET
    request is upgraded with read and write buffers of 32768 bytes: the
    first call [HandleConnection] makes is [Upgrade] with these sizes,
    the given response writer and the request. *)
Theorem GeDefaultWebsocketTransport_then_HandleConnection `{L : Lower}
    (rw : ResponseWriter) (r : Request) (w : World L) :
  Method r = http_MethodGet ->
  exists p w1 res w2,
    GeDefaultWebsocketTransport w = Some (p, w1)
    /\ HandleConnection p rw r w1 = Some (res, w2)
    /\ head (new_calls w1 w2)
       = Some (CallUpgrade {| ReadBufferSize := 32768;
                              WriteBufferSize := 32768 |} rw r).
Proof.
  intros Hget.
  unfold GeDefaultWebsocketTransport.
  destruct (new_transport_fresh (tls_transport None None) w)
    as (p & Hnew & _ & _).
  set (w1 := {| transports := <[p := tls_transport None None]> (transports w);
                lower := lower w; calls := calls w |}) in *.
  assert (transports w1 !! p = Some (tls_transport None None)) as Hp
    by (cbn [transports w1]; by rewrite lookup_insert_eq).
  pose proof (HandleConnection_run_get p rw r w1 _ Hget Hp) as Hrun.
  cbv zeta in Hrun.
  destruct (upgrader_Upgrade _ _ _ _).1.2;
    eexists p, w1, _, _; (split; [exact Hnew|]); (split; [exact Hrun|]);
    by rewrite new_calls_after.
Qed.

Lemma GeDefaultWebsocketTransport_then_HandleConnection_witness :
  exists p w1 res w2,
    GeDefaultWebsocketTransport (Sim.world Sim.quiet) = Some (p, w1)
    /\ @HandleConnection Sim.layer p tt
         {| Method := "GET"; RequestURI := "/ws" |} w1 = Some (res, w2)
    /\ head (new_calls w1 w2)
       = Some (@CallUpgrade Sim.layer
                 {| ReadBufferSize := 32768; WriteBufferSize := 32768 |} tt
                 {| Method := "GET"; RequestURI := "/ws" |}).
Proof.
  exact (GeDefaultWebsocketTransport_then_HandleConnection (L:=Sim.layer) tt
           {| Method := "GET"; RequestURI := "/ws" |} (Sim.world Sim.quiet)
           eq_refl).
Defined.

(** ** Nil transports *)

(** X13.  Every path that reads a field of the transport panics when
    the pointer holds no transport (a nil [*WebsocketTransport], or the
    nil [transport] of a zero-valued connection): [Connect],
    [HandleConnection] on a GET request, [PingParams], [GetMessage] and
    [WriteMessage].  [HandleConnection] on another method does not read
    the transport and returns. *)
Theorem nil_transport_panics `{L : Lower} (t : loc) (c : Conn)
    (url message : string) (rw : ResponseWriter) (r : Request)
    (w : World L) :
  transports w !! t = None ->
  let wsc := {| socket := c; transport := t |} in
  Connect t url w = None
  /\ PingParams wsc w = None
  /\ GetMessage wsc w = None
  /\ WriteMessage wsc message w = None
  /\ (Method r = http_MethodGet -> HandleConnection t rw r w = None)
  /\ (Method r <> http_MethodGet -> HandleConnection t rw r w <> None).
Proof.
  intros Hnil wsc. repeat split.
  - unfold Connect. by rewrite bind_load_None.
  - unfold PingParams. by rewrite bind_load_None.
  - unfold GetMessage. rewrite bind_lower_call. by rewrite bind_load_None.
  - unfold WriteMessage. rewrite bind_lower_call. by rewrite bind_load_None.
  - intros Hget. unfold HandleConnection. rewrite Hget.
    replace (http_MethodGet =? http_MethodGet)%string with true
      by (symmetry; apply String.eqb_refl).
    cbn [negb]. by rewrite bind_load_None.
  - intros Hother. by rewrite (HandleConnection_run_other t rw r w Hother).
Qed.

Lemma nil_transport_panics_witness :
  let wsc : WebsocketConnection Sim.layer :=
    {| socket := socket Sim.conn; transport := nil_loc |} in
  Connect nil_loc "ws://localhost/socket.io/" (Sim.world Sim.quiet) = None
  /\ PingParams wsc (Sim.world Sim.quiet) = None
  /\ GetMessage wsc (Sim.world Sim.quiet) = None
  /\ WriteMessage wsc "ping" (Sim.world Sim.quiet) = None
  /\ @HandleConnection Sim.layer nil_loc tt
       {| Method := "GET"; RequestURI := "/ws" |} (Sim.world Sim.quiet)
     = None.
Proof.
  intros wsc.
  destruct (nil_transport_panics (L:=Sim.layer) nil_loc (socket Sim.conn)
              "ws://localhost/socket.io/" "ping" tt
              {| Method := "GET"; RequestURI := "/ws" |}
              (Sim.world Sim.quiet) eq_refl)
    as (Hconnect & Hping & Hget & Hwrite & Hhandle & _).
  exact (conj Hconnect (conj Hping (conj Hget (conj Hwrite
           (Hhandle eq_refl))))).
Defined.
